(** * Social logins for Flask: the OAuth login orchestrator

    A shallow embedding of [src/utils.py], [src/config.py],
    [src/app/services/oauth.py] and [src/app/routes/auth.py].

    - The Flask session is a string-keyed finite map of JSON-like values.
    - Python exceptions are values of [exn]; a computation keeps the
      mutations it made to the session before it raised.
    - Everything outside the repository (authlib's client, httpx, the
      provider endpoints) is an oracle collected in the record [World];
      every outbound call is appended to a log, so that "this call was
      never made" is a statement about the log. *)

From Stdlib Require Import ZArith NArith Lia.
From Stdlib.Strings Require Import Ascii String Byte.
From stdpp Require Import base option list strings gmap fin_maps.

Open Scope string_scope.
Set Warnings "-register-all".

(** ** Values *)

(** What [response.json()] returns and what the session stores.
    Numbers are integer valued. *)
Inductive json : Type :=
| JNull
| JBool (b : bool)
| JNum (n : Z)
| JStr (s : string)
| JArr (l : list json)
| JObj (fields : list (string * json)).

(** Python truthiness: [None], [False], [0], the empty string, the empty
    list and the empty dict are falsy. *)
Definition truthy (v : json) : bool :=
  match v with
  | JNull => false
  | JBool b => b
  | JNum n => negb (n =? 0)%Z
  | JStr s => negb (String.eqb s "")
  | JArr l => match l with [] => false | _ => true end
  | JObj f => match f with [] => false | _ => true end
  end.

(** [not x] for the result of [dict.get], where an absent key is [None]. *)
Definition py_not (v : option json) : bool :=
  match v with
  | None => true
  | Some j => negb (truthy j)
  end.

(** [stored != received] for a session value against the value of
    [request.args.get], which is a string or [None]. *)
Definition py_ne (stored : option json) (received : option string) : bool :=
  match stored, received with
  | None, None => false
  | Some JNull, None => false
  | Some (JStr a), Some b => negb (String.eqb a b)
  | _, _ => true
  end.

(** ** Exceptions *)

Inductive exn : Type :=
| BadRequest (description : string)
| InternalServerError (description : string)
| AttributeError (msg : string)
| KeyError (key : string)
| JSONDecodeError
| ValidationError
| ImportError (name : string)
| LibraryError (detail : string).

(** The error taxonomy of the specification, as the exceptions the source
    raises for each condition. *)
Definition UnknownProviderError : exn := BadRequest "Unsupported provider: None".
Definition InvalidStateError : exn := BadRequest "Invalid state parameter.".
Definition TokenExchangeError (raw_text : string) : exn :=
  BadRequest ("Failed to fetch access token: " +:+ raw_text).
Definition ProfileFetchError : exn := InternalServerError "Failed to fetch user data.".
Definition ConfigurationError : exn := ValidationError.

(** ** Providers: [OAuthProvider] and [get_provider] *)

Inductive OAuthProvider : Type := GOOGLE | FACEBOOK | LINKEDIN.

Definition provider_value (p : OAuthProvider) : string :=
  match p with
  | GOOGLE => "google"
  | FACEBOOK => "facebook"
  | LINKEDIN => "linkedin"
  end.

(** [utils.get_provider]: [None] is Python's [None]. *)
Definition get_provider (provider_name : string) : option OAuthProvider :=
  if String.eqb provider_name (provider_value GOOGLE) then Some GOOGLE
  else if String.eqb provider_name (provider_value LINKEDIN) then Some LINKEDIN
  else if String.eqb provider_name (provider_value FACEBOOK) then Some FACEBOOK
  else None.

Definition is_linkedin (p : option OAuthProvider) : bool :=
  match p with Some LINKEDIN => true | _ => false end.

Definition is_facebook (p : option OAuthProvider) : bool :=
  match p with Some FACEBOOK => true | _ => false end.

(** ** The nonce: [os.urandom(16).hex()] *)

Module Hex.

Definition digit (n : N) : ascii :=
  match n with
  | 0 => "0" | 1 => "1" | 2 => "2" | 3 => "3" | 4 => "4"
  | 5 => "5" | 6 => "6" | 7 => "7" | 8 => "8" | 9 => "9"
  | 10 => "a" | 11 => "b" | 12 => "c" | 13 => "d" | 14 => "e"
  | _ => "f"
  end%N%char.

Definition undigit (c : ascii) : option N :=
  let n := N_of_ascii c in
  if ((48 <=? n) && (n <=? 57))%N then Some (n - 48)%N
  else if ((97 <=? n) && (n <=? 102))%N then Some (n - 87)%N
  else None.

(** [bytes.hex()]: two lowercase digits per byte, high nibble first. *)
Fixpoint hex (bs : list Byte.byte) : string :=
  match bs with
  | [] => ""
  | b :: rest =>
      let n := Byte.to_N b in
      String (digit (n / 16)) (String (digit (n mod 16)) (hex rest))
  end.

(** The decoder, used only to show that [hex] loses nothing. *)
Fixpoint unhex (s : string) : option (list Byte.byte) :=
  match s with
  | "" => Some []
  | String hi (String lo rest) =>
      match undigit hi, undigit lo, unhex rest with
      | Some h, Some l, Some bs =>
          match Byte.of_N (16 * h + l) with
          | Some b => Some (b :: bs)
          | None => None
          end
      | _, _, _ => None
      end
  | _ => None
  end.

End Hex.

(** ** Configuration: [src/config.py] *)

Record Config : Type := {
  DEBUG : bool;
  GOOGLE_CLIENT_ID : string;
  GOOGLE_CLIENT_SECRET : string;
  FACEBOOK_CLIENT_ID : string;
  FACEBOOK_CLIENT_SECRET : string;
  LINKEDIN_CLIENT_ID : string;
  LINKEDIN_CLIENT_SECRET : string
}.

(** ** Requests, responses and the outside world *)

(** [request.args] keeps the query string in order; [get] returns the
    first value of a key, or [None]. *)
Record Request : Type := {
  host : string;
  args : list (string * string)
}.

Fixpoint args_get (l : list (string * string)) (key : string) : option string :=
  match l with
  | [] => None
  | (k, v) :: rest => if String.eqb k key then Some v else args_get rest key
  end.

Record http_response : Type := {
  status_code : Z;
  text : string;
  json_body : option json   (* [None]: the body is not JSON, [.json()] raises *)
}.

Inductive response : Type :=
| Redirect (location : json)
| RenderTemplate (template : string) (context : list (string * option json))
| AuthorizeRedirectResponse (client : OAuthProvider) (redirect_uri state : string).

(** Calls that leave the process, in the order they are made. *)
Inductive outbound : Type :=
| CallAuthorizeRedirect (client : OAuthProvider) (redirect_uri state : string)
| CallAuthorizeAccessToken (client : OAuthProvider)
| CallTokenPost (url : string) (data : list (string * option string))
| CallProfileGet (client : OAuthProvider) (url : string) (token : json).

(** What a call into authlib's Flask client yields: a result or an
    exception, and the bookkeeping it keeps in the session, which lives
    under keys that start with [_state_]. [None] deletes a key. *)
Record lib_outcome (A : Type) : Type := {
  lib_result : exn + A;
  lib_session_writes : list (string * option json)
}.
Arguments lib_result {A} _.
Arguments lib_session_writes {A} _.

Record World : Type := {
  settings : Config;
  urandom : nat -> list Byte.byte;
  client_authorize_redirect :
    OAuthProvider -> string -> string -> gmap string json -> lib_outcome unit;
  client_authorize_access_token :
    OAuthProvider -> Request -> gmap string json -> lib_outcome json;
  httpx_post : string -> list (string * option string) -> exn + http_response;
  client_get : OAuthProvider -> string -> json -> exn + http_response
}.

(** ** Interpreter state and the exception monad *)

Record pystate : Type := {
  session : gmap string json;
  calls : list outbound
}.

Definition M (A : Type) : Type := pystate -> (exn + A) * pystate.

Definition ret {A} (a : A) : M A := fun st => (inr a, st).

Definition raise {A} (e : exn) : M A := fun st => (inl e, st).

Definition bind {A B} (m : M A) (k : A -> M B) : M B :=
  fun st =>
    match m st with
    | (inr a, st') => k a st'
    | (inl e, st') => (inl e, st')
    end.

(** [try: m except Exception as e: h e] *)
Definition try_except {A} (m : M A) (h : exn -> M A) : M A :=
  fun st =>
    match m st with
    | (inl e, st') => h e st'
    | r => r
    end.

Notation "'let*' x ':=' c 'in' k" := (bind c (fun x => k))
  (at level 10, x name, c at level 100, k at level 200).
Notation "c ';;;' k" := (bind c (fun _ => k))
  (at level 100, k at level 200, right associativity).

Definition with_session (f : gmap string json -> gmap string json) : M unit :=
  fun st => (inr tt, {| session := f (session st); calls := calls st |}).

Definition log_call (c : outbound) : M unit :=
  fun st => (inr tt, {| session := session st; calls := calls st ++ [c] |}).

Definition lift {A} (r : exn + A) : M A := fun st => (r, st).

(** [session.get(key)] *)
Definition session_get (key : string) : M (option json) :=
  fun st => (inr (session st !! key), st).

(** [session[key]] *)
Definition session_getitem (key : string) : M json :=
  fun st =>
    match session st !! key with
    | Some v => (inr v, st)
    | None => (inl (KeyError key), st)
    end.

(** [session[key] = value] *)
Definition session_set (key : string) (value : json) : M unit :=
  with_session (insert key value).

(** [session.pop(key, default)] *)
Definition session_pop (key : string) (default : json) : M json :=
  fun st =>
    (inr (from_option id default (session st !! key)),
     {| session := delete key (session st); calls := calls st |}).

(** [session.clear()] *)
Definition session_clear : M unit := with_session (fun _ => ∅).

Definition lib_key (k : string) : string := "_state_" +:+ k.

Definition lib_write (m : gmap string json) (w : string * option json)
  : gmap string json :=
  match w.2 with
  | Some v => <[lib_key w.1 := v]> m
  | None => delete (lib_key w.1) m
  end.

(** Run a library call: its session bookkeeping is applied whether it
    returns or raises. *)
Definition run_lib {A} (f : gmap string json -> lib_outcome A) : M A :=
  fun st =>
    let o := f (session st) in
    (lib_result o,
     {| session := foldl lib_write (session st) (lib_session_writes o);
        calls := calls st |}).

(** ** URLs: the routes of [auth_bp], as [url_for] resolves them *)

Definition url_scheme (cfg : Config) : string :=
  if negb (DEBUG cfg) then "https" else "http".

Definition url_for_auth_callback (cfg : Config) (req : Request) (provider : string)
  : string :=
  url_scheme cfg +:+ "://" +:+ host req +:+ "/auth/" +:+ provider +:+ "/callback".

Definition url_for_index : string := "/".
Definition url_for_success : string := "/success".
Definition url_for_failure : string := "/failure".

(** ** The service: [OAuthService] in [src/app/services/oauth.py] *)

(** [self.clients.get(provider)]: the dictionary has exactly the three
    members of [OAuthProvider] as keys, each bound to its registered
    client; a client is named by its provider. *)
Definition clients_get (provider : option OAuthProvider) : option OAuthProvider :=
  provider.

Definition linkedin_access_token_url : string :=
  "https://www.linkedin.com/oauth/v2/accessToken".
Definition linkedin_userinfo_url : string :=
  "https://api.linkedin.com/v2/userinfo".
Definition facebook_userinfo_url : string :=
  "https://graph.facebook.com/v12.0/me?fields=id,name,email,picture".
Definition google_userinfo_url : string :=
  "https://www.googleapis.com/oauth2/v1/userinfo".

(** [response.json()] *)
Definition response_json (r : http_response) : M json :=
  match json_body r with
  | Some j => ret j
  | None => raise JSONDecodeError
  end.

(** A method call on a client, which is [None] for an unresolved provider. *)
Definition on_client {A} (oauth_client : option OAuthProvider) (method : string)
    (call : OAuthProvider -> M A) : M A :=
  match oauth_client with
  | Some c => call c
  | None =>
      raise (AttributeError
               ("'NoneType' object has no attribute '" +:+ method +:+ "'"))
  end.

Definition initiate_social_login (w : World) (req : Request)
    (provider : option OAuthProvider) : M response :=
  match clients_get provider with
  | None => raise (BadRequest "Unsupported provider: None")
  | Some oauth_client =>
      let redirect_uri :=
        url_for_auth_callback (settings w) req (provider_value oauth_client) in
      session_set "redirect_path" (JStr redirect_uri) ;;;
      let state := Hex.hex (urandom w 16) in
      session_set "oauth_state" (JStr state) ;;;
      log_call (CallAuthorizeRedirect oauth_client redirect_uri state) ;;;
      run_lib (client_authorize_redirect w oauth_client redirect_uri state) ;;;
      ret (AuthorizeRedirectResponse oauth_client redirect_uri state)
  end.

Definition linkedin_token_data (w : World) (req : Request)
  : list (string * option string) :=
  [ ("grant_type", Some "authorization_code");
    ("code", args_get (args req) "code");
    ("redirect_uri",
     Some (url_for_auth_callback (settings w) req (provider_value LINKEDIN)));
    ("client_id", Some (LINKEDIN_CLIENT_ID (settings w)));
    ("client_secret", Some (LINKEDIN_CLIENT_SECRET (settings w))) ].

Definition get_token (w : World) (req : Request)
    (provider : option OAuthProvider) : M json :=
  let oauth_client := clients_get provider in
  if is_linkedin provider then
    let token_data := linkedin_token_data w req in
    log_call (CallTokenPost linkedin_access_token_url token_data) ;;;
    let* token_response := lift (httpx_post w linkedin_access_token_url token_data) in
    if negb (status_code token_response =? 200)%Z then
      raise (BadRequest ("Failed to fetch access token: " +:+ text token_response))
    else
      response_json token_response
  else
    on_client oauth_client "authorize_access_token" (fun c =>
      log_call (CallAuthorizeAccessToken c) ;;;
      run_lib (client_authorize_access_token w c req)).

Definition client_get_logged (w : World) (oauth_client : option OAuthProvider)
    (url : string) (token : json) : M http_response :=
  on_client oauth_client "get" (fun c =>
    log_call (CallProfileGet c url token) ;;;
    lift (client_get w c url token)).

(** Returns [JNull] where the source returns [None]. *)
Definition fetch_user_data (w : World) (provider : option OAuthProvider)
    (token : json) : M json :=
  try_except
    (let oauth_client := clients_get provider in
     let* response :=
       (if is_linkedin provider then
          client_get_logged w oauth_client linkedin_userinfo_url token
        else if is_facebook provider then
          client_get_logged w oauth_client facebook_userinfo_url token
        else
          client_get_logged w oauth_client google_userinfo_url token) in
     if (status_code response =? 200)%Z then
       response_json response
     else
       ret JNull)
    (fun _ => ret JNull).

Definition handle_oauth_callback (w : World) (req : Request)
    (provider : option OAuthProvider) : M response :=
  let* stored_state := session_get "oauth_state" in
  let received_state := args_get (args req) "state" in
  if py_not stored_state || py_ne stored_state received_state then
    raise (BadRequest "Invalid state parameter.")
  else
    session_pop "oauth_state" JNull ;;;
    let* token := get_token w req provider in
    let* user_data := fetch_user_data w provider token in
    if negb (truthy user_data) then
      raise (InternalServerError "Failed to fetch user data.")
    else
      session_set "user_data" user_data ;;;
      let* redirect_path := session_pop "redirect_path" (JStr url_for_success) in
      ret (Redirect redirect_path).

(** ** The routes: [src/app/routes/auth.py] *)

(** Flask's [flash(message)]: appends [(category, message)] to the list
    kept in the session under [_flashes]. *)
Definition flash (message : string) : M unit :=
  let* flashes := session_get "_flashes" in
  match flashes with
  | None => session_set "_flashes" (JArr [JArr [JStr "message"; JStr message]])
  | Some (JArr l) =>
      session_set "_flashes" (JArr (l ++ [JArr [JStr "message"; JStr message]]))
  | Some _ => raise (AttributeError "append")
  end.

Definition index : M response :=
  let* user_data := session_get "user" in
  ret (RenderTemplate "index.html" [("user", user_data)]).

Definition social_login (w : World) (req : Request) (provider : string) : M response :=
  try_except
    (initiate_social_login w req (get_provider provider))
    (fun _ =>
       flash "Failed to initiate social login." ;;;
       ret (Redirect (JStr url_for_index))).

Definition auth_callback (w : World) (req : Request) (provider : string) : M response :=
  try_except
    (handle_oauth_callback w req (get_provider provider) ;;;
     let* user_data := session_getitem "user_data" in
     if truthy user_data then ret (Redirect (JStr url_for_success))
     else ret (Redirect (JStr url_for_failure)))
    (fun _ => ret (Redirect (JStr url_for_failure))).

Definition success : M response :=
  let* user_data := session_get "user_data" in
  if py_not user_data then ret (Redirect (JStr url_for_failure))
  else ret (RenderTemplate "success.html" [("user", user_data)]).

Definition failure : M response :=
  ret (RenderTemplate "failure.html" []).

Definition logout : M response :=
  session_clear ;;;
  ret (Redirect (JStr url_for_index)).

(** ** Process start: [src/config.py] and the imports of [create_app] *)

Module Startup.

Definition lower (c : ascii) : ascii :=
  let n := N_of_ascii c in
  if ((65 <=? n) && (n <=? 90))%N then ascii_of_N (n + 32) else c.

Fixpoint lowercase (s : string) : string :=
  match s with
  | "" => ""
  | String c rest => String (lower c) (lowercase rest)
  end.

Definition mem (s : string) (l : list string) : bool :=
  existsb (String.eqb s) l.

(** How the settings library reads a [bool] field from a string. *)
Definition parse_bool (s : string) : option bool :=
  let l := lowercase s in
  if mem l ["1"; "on"; "t"; "true"; "y"; "yes"] then Some true
  else if mem l ["0"; "off"; "f"; "false"; "n"; "no"] then Some false
  else None.

(** The six fields declared with [Field(...)], that is, without default. *)
Definition required_fields : list string :=
  [ "GOOGLE_CLIENT_ID"; "GOOGLE_CLIENT_SECRET";
    "FACEBOOK_CLIENT_ID"; "FACEBOOK_CLIENT_SECRET";
    "LINKEDIN_CLIENT_ID"; "LINKEDIN_CLIENT_SECRET" ].

(** The seven fields of [Config]. *)
Definition field_names : list string := "DEBUG" :: required_fields.

(** No entry other than a field: the settings class forbids extra inputs. *)
Definition known_keys (env : gmap string string) : bool :=
  forallb (fun kv => mem kv.1 field_names) (map_to_list env).

(** [Config()]: [env] is what the settings sources hand to the model,
    keyed by field name: the variables of the process environment that
    name a field, and every entry of the [.env] file. An entry that names
    no field (it can only come from the [.env] file) is an extra input and
    is refused with the same validation error as a missing field. *)
Definition Config_init (env : gmap string string) : exn + Config :=
  let debug :=
    match env !! "DEBUG" with
    | None => Some false
    | Some s => parse_bool s
    end in
  if negb (known_keys env) then inl ValidationError else
  match debug,
        env !! "GOOGLE_CLIENT_ID", env !! "GOOGLE_CLIENT_SECRET",
        env !! "FACEBOOK_CLIENT_ID", env !! "FACEBOOK_CLIENT_SECRET",
        env !! "LINKEDIN_CLIENT_ID", env !! "LINKEDIN_CLIENT_SECRET" with
  | Some d, Some gi, Some gs, Some fi, Some fs, Some li, Some ls =>
      inr {| DEBUG := d;
             GOOGLE_CLIENT_ID := gi; GOOGLE_CLIENT_SECRET := gs;
             FACEBOOK_CLIENT_ID := fi; FACEBOOK_CLIENT_SECRET := fs;
             LINKEDIN_CLIENT_ID := li; LINKEDIN_CLIENT_SECRET := ls |}
  | _, _, _, _, _, _, _ => inl ValidationError
  end.

(** Executing the module [src.config]: the value bound to [settings]
    when the module body has run, [None] when the name is left unbound.
    The [except ValidationError] clause prints and goes on. *)
Definition config_module (env : gmap string string) : exn + option Config :=
  match Config_init env with
  | inr c => inr (Some c)
  | inl ValidationError => inr None
  | inl e => inl e
  end.

(** [from src.config import settings] *)
Definition import_settings (env : gmap string string) : exn + Config :=
  match config_module env with
  | inl e => inl e
  | inr (Some c) => inr c
  | inr None => inl (ImportError "settings")
  end.

(** Executing [src.app.services.oauth]: imports [settings], then builds
    [oauth_service], whose clients are registered with the credentials. *)
Record OAuthService : Type := { service_settings : Config }.

Definition services_oauth_module (env : gmap string string) : exn + OAuthService :=
  match import_settings env with
  | inl e => inl e
  | inr c => inr {| service_settings := c |}
  end.

(** Executing [src.app.routes.auth]: imports [oauth_service]. *)
Definition routes_auth_module (env : gmap string string) : exn + OAuthService :=
  services_oauth_module env.

Record App : Type := { app_service : OAuthService }.

(** [create_app()]: the blueprint import inside it runs the modules above. *)
Definition create_app (env : gmap string string) : exn + App :=
  match routes_auth_module env with
  | inl e => inl e
  | inr svc => inr {| app_service := svc |}
  end.

Definition missing_credential (env : gmap string string) : Prop :=
  exists k, In k required_fields /\ env !! k = None.

End Startup.

(** ** Requests served in sequence *)

(** One request to one of the six routes of [auth_bp]. *)
Inductive route_call : Type :=
| GetIndex
| GetSocialLogin (provider : string)
| GetAuthCallback (provider : string)
| GetSuccess
| GetFailure
| GetLogout.

Definition dispatch (w : World) (req : Request) (c : route_call) : M response :=
  match c with
  | GetIndex => index
  | GetSocialLogin provider => social_login w req provider
  | GetAuthCallback provider => auth_callback w req provider
  | GetSuccess => success
  | GetFailure => failure
  | GetLogout => logout
  end.

(** A browser session: requests served one after the other, each in the
    world it meets, from the state the previous one left. *)
Definition serve (st : pystate) (step : World * Request * route_call) : pystate :=
  snd (dispatch step.1.1 step.1.2 step.2 st).

(** A new browser session: nothing stored, nothing called. *)
Definition new_session : pystate := {| session := ∅; calls := [] |}.

Definition run_routes (steps : list (World * Request * route_call)) : pystate :=
  foldl serve new_session steps.

(** ** Derived notions used in the statements *)

(** A key the client library never writes. *)
Definition app_key (k : string) : Prop := forall k', lib_key k' <> k.

(** The profile URL the source selects for each client. *)
Definition userinfo_url (c : OAuthProvider) : string :=
  match c with
  | LINKEDIN => linkedin_userinfo_url
  | FACEBOOK => facebook_userinfo_url
  | GOOGLE => google_userinfo_url
  end.

(** The test of the first gate: the stored nonce is truthy and equal to
    the [state] query parameter. *)
Definition state_accepted (st : pystate) (req : Request) : bool :=
  negb (py_not (session st !! "oauth_state")
        || py_ne (session st !! "oauth_state") (args_get (args req) "state")).

(** The state in which the token exchange starts. *)
Definition after_pop (st : pystate) : pystate :=
  {| session := delete "oauth_state" (session st); calls := calls st |}.

(** The [state] parameter of the redirect a response carries. *)
Definition redirect_state (r : response) : option string :=
  match r with
  | AuthorizeRedirectResponse _ _ state => Some state
  | _ => None
  end.

(** The common field set of the specification's normalized profile. *)
Definition common_fields : list string := ["id"; "name"; "email"; "picture"].

(** The specification's notion, written from its words for comparison
    with what the code stores: a normalized profile is an object whose field names all belong to the
    common set. *)
Definition spec_normalized (profile : json) : bool :=
  match profile with
  | JObj fields => forallb (fun kv => Startup.mem kv.1 common_fields) fields
  | _ => false
  end.

(** ** Code beside the login flow *)

(** [Config.get_secret_key]: falls off the end, that is, returns [None],
    for any other provider name. *)
Definition get_secret_key (cfg : Config) (provider : string) : option string :=
  if String.eqb provider "google" then Some (GOOGLE_CLIENT_SECRET cfg)
  else if String.eqb provider "facebook" then Some (FACEBOOK_CLIENT_SECRET cfg)
  else if String.eqb provider "linkedin" then Some (LINKEDIN_CLIENT_SECRET cfg)
  else None.

(** The keyword arguments of one [oauth.register(...)] call. *)
Record registration : Type := {
  reg_name : string;
  reg_client_id : string;
  reg_client_secret : string;
  reg_server_metadata_url : option string;
  reg_access_token_url : option string;
  reg_authorize_url : option string;
  reg_api_base_url : option string;
  reg_scope : string
}.

Definition _create_google_client (cfg : Config) : registration :=
  {| reg_name := "google";
     reg_client_id := GOOGLE_CLIENT_ID cfg;
     reg_client_secret := GOOGLE_CLIENT_SECRET cfg;
     reg_server_metadata_url :=
       Some "https://accounts.google.com/.well-known/openid-configuration";
     reg_access_token_url := None;
     reg_authorize_url := None;
     reg_api_base_url := None;
     reg_scope := "openid email profile" |}.

Definition _create_facebook_client (cfg : Config) : registration :=
  {| reg_name := "facebook";
     reg_client_id := FACEBOOK_CLIENT_ID cfg;
     reg_client_secret := FACEBOOK_CLIENT_SECRET cfg;
     reg_server_metadata_url := None;
     reg_access_token_url := Some "https://graph.facebook.com/oauth/access_token";
     reg_authorize_url := Some "https://www.facebook.com/dialog/oauth";
     reg_api_base_url := Some "https://graph.facebook.com/v12.0/";
     reg_scope := "email public_profile" |}.

Definition _create_linkedin_client (cfg : Config) : registration :=
  {| reg_name := "linkedin";
     reg_client_id := LINKEDIN_CLIENT_ID cfg;
     reg_client_secret := LINKEDIN_CLIENT_SECRET cfg;
     reg_server_metadata_url := None;
     reg_access_token_url := Some "https://www.linkedin.com/oauth/v2/accessToken";
     reg_authorize_url := Some "https://www.linkedin.com/oauth/v2/authorization";
     reg_api_base_url := Some "https://api.linkedin.com/v2/";
     reg_scope := "openid profile email" |}.

(** [OAuthService._initialize_clients]: the dictionary, as a function of
    its three keys. *)
Definition _initialize_clients (cfg : Config) (p : OAuthProvider) : registration :=
  match p with
  | GOOGLE => _create_google_client cfg
  | FACEBOOK => _create_facebook_client cfg
  | LINKEDIN => _create_linkedin_client cfg
  end.

(** The call the token step of a provider makes. *)
Definition token_call (w : World) (req : Request) (c : OAuthProvider) : outbound :=
  match c with
  | LINKEDIN => CallTokenPost linkedin_access_token_url (linkedin_token_data w req)
  | _ => CallAuthorizeAccessToken c
  end.

(** Characters of a lowercase hexadecimal numeral. *)
Definition is_hex_char (c : ascii) : bool :=
  match Hex.undigit c with Some _ => true | None => false end.

Fixpoint string_forall (f : ascii -> bool) (s : string) : bool :=
  match s with
  | "" => true
  | String c rest => f c && string_forall f rest
  end.

(** The configuration source has everything [Config()] needs and nothing
    it refuses. *)
Definition complete_environment (env : gmap string string) : Prop :=
  (forall k, In k Startup.required_fields -> is_Some (env !! k))
  /\ (forall s, env !! "DEBUG" = Some s -> is_Some (Startup.parse_bool s))
  /\ (forall k, is_Some (env !! k) -> In k Startup.field_names).

(** ** A small world to run the code in *)

Module Demo.

Definition cfg : Config :=
  {| DEBUG := true;
     GOOGLE_CLIENT_ID := "g-id"; GOOGLE_CLIENT_SECRET := "g-secret";
     FACEBOOK_CLIENT_ID := "f-id"; FACEBOOK_CLIENT_SECRET := "f-secret";
     LINKEDIN_CLIENT_ID := "l-id"; LINKEDIN_CLIENT_SECRET := "l-secret" |}.

Definition quiet {A} (r : exn + A) : lib_outcome A :=
  {| lib_result := r; lib_session_writes := [] |}.

Definition ok (body : json) : http_response :=
  {| status_code := 200; text := "ok"; json_body := Some body |}.

Definition unauthorized : http_response :=
  {| status_code := 401; text := "invalid_client"; json_body := None |}.

Definition token : json := JObj [("access_token", JStr "tok")].

(** A LinkedIn-shaped profile: OpenID Connect names the identifier [sub]. *)
Definition linkedin_profile : json :=
  JObj [("sub", JStr "782bbtaQ"); ("name", JStr "Ada L");
        ("email", JStr "ada@example.org"); ("locale", JStr "en-US")].

(** Every endpoint answers 200; the bytes of the nonce are all [fill]. *)
Definition world (fill : Byte.byte) : World :=
  {| settings := cfg;
     urandom := fun n => replicate n fill;
     client_authorize_redirect := fun _ _ _ _ => quiet (inr tt);
     client_authorize_access_token := fun _ _ _ => quiet (inr token);
     httpx_post := fun _ _ => inr (ok token);
     client_get := fun _ _ _ => inr (ok linkedin_profile) |}.

(** The token endpoints answer 401: httpx hands the response back, the
    client library raises its own error. *)
Definition world_401 : World :=
  {| settings := cfg;
     urandom := fun n => replicate n x00;
     client_authorize_redirect := fun _ _ _ _ => quiet (inr tt);
     client_authorize_access_token :=
       fun _ _ _ => quiet (inl (LibraryError "invalid_client"));
     httpx_post := fun _ _ => inr unauthorized;
     client_get := fun _ _ _ => inr (ok linkedin_profile) |}.

Definition nonce00 : string := Hex.hex (replicate 16 x00).

Definition callback_request (state : string) : Request :=
  {| host := "localhost:5000"; args := [("code", "c0de"); ("state", state)] |}.

Definition start_request : Request := {| host := "localhost:5000"; args := [] |}.

Definition fresh : pystate := new_session.

Definition waiting (state : string) : pystate :=
  {| session := {[ "oauth_state" := JStr state ]}; calls := [] |}.

End Demo.

(** A whole login: [start] on a fresh session, then the callback of the
    same browser with the nonce echoed back. *)
Definition demo_started : pystate :=
  snd (initiate_social_login (Demo.world x00) Demo.start_request
         (Some LINKEDIN) Demo.fresh).

(** A full login through the routes: [/auth/linkedin], then the callback
    with the nonce echoed back. *)
Definition demo_login_requests : list (World * Request * route_call) :=
  [ (Demo.world x00, Demo.start_request, GetSocialLogin "linkedin");
    (Demo.world x00, Demo.callback_request Demo.nonce00,
     GetAuthCallback "linkedin") ].

(** An environment with the six credentials, one of them empty. *)
Definition demo_environment : gmap string string :=
  list_to_map
    [ ("GOOGLE_CLIENT_ID", "g-id"); ("GOOGLE_CLIENT_SECRET", "");
      ("FACEBOOK_CLIENT_ID", "f-id"); ("FACEBOOK_CLIENT_SECRET", "f-secret");
      ("LINKEDIN_CLIENT_ID", "l-id"); ("LINKEDIN_CLIENT_SECRET", "l-secret") ].

Definition demo_app : Startup.App :=
  {| Startup.app_service :=
       {| Startup.service_settings :=
            {| DEBUG := false;
               GOOGLE_CLIENT_ID := "g-id"; GOOGLE_CLIENT_SECRET := "";
               FACEBOOK_CLIENT_ID := "f-id"; FACEBOOK_CLIENT_SECRET := "f-secret";
               LINKEDIN_CLIENT_ID := "l-id"; LINKEDIN_CLIENT_SECRET := "l-secret" |} |} |}.

(** A world given by the answers of the token endpoint (to httpx) and of
    the profile endpoint; the client library returns a token. *)
Definition demo_world_with (post get : exn + http_response) : World :=
  {| settings := Demo.cfg;
     urandom := fun n => replicate n x00;
     client_authorize_redirect := fun _ _ _ _ => Demo.quiet (inr tt);
     client_authorize_access_token := fun _ _ _ => Demo.quiet (inr Demo.token);
     httpx_post := fun _ _ => post;
     client_get := fun _ _ _ => get |}.

(** * Reasoning about the embedding *)

(** ** The hexadecimal rendering is injective *)

Lemma unhex_byte (b : Byte.byte) :
  match Hex.undigit (Hex.digit (Byte.to_N b / 16)),
        Hex.undigit (Hex.digit (Byte.to_N b mod 16)) with
  | Some h, Some l => Byte.of_N (16 * h + l)
  | _, _ => None
  end = Some b.
Proof. destruct b; vm_compute; reflexivity. Qed.

Lemma unhex_hex (bs : list Byte.byte) : Hex.unhex (Hex.hex bs) = Some bs.
Proof.
  induction bs as [|b bs IH]; [reflexivity|].
  cbn [Hex.hex Hex.unhex].
  pose proof (unhex_byte b) as Hb.
  destruct (Hex.undigit (Hex.digit (Byte.to_N b / 16))) as [h|]; [|discriminate].
  destruct (Hex.undigit (Hex.digit (Byte.to_N b mod 16))) as [l|]; [|discriminate].
  rewrite IH, Hb. reflexivity.
Qed.

Lemma hex_inj (a b : list Byte.byte) : Hex.hex a = Hex.hex b -> a = b.
Proof.
  intros H. apply (f_equal Hex.unhex) in H.
  rewrite !unhex_hex in H. congruence.
Qed.

Lemma hex_length (bs : list Byte.byte) :
  String.length (Hex.hex bs) = 2 * length bs.
Proof. induction bs as [|b bs IH]; cbn [Hex.hex String.length length]; lia. Qed.

(** ** Keys of the application and keys of the client library *)

Lemma app_key_oauth_state : app_key "oauth_state".
Proof. intros k' H. cbv [lib_key String.append] in H. discriminate. Qed.

Lemma app_key_user_data : app_key "user_data".
Proof. intros k' H. cbv [lib_key String.append] in H. discriminate. Qed.

Lemma app_key_redirect_path : app_key "redirect_path".
Proof. intros k' H. cbv [lib_key String.append] in H. discriminate. Qed.

Lemma app_key_user : app_key "user".
Proof. intros k' H. cbv [lib_key String.append] in H. discriminate. Qed.

Lemma lib_writes_frame (ws : list (string * option json)) (m : gmap string json)
    (k : string) :
  app_key k -> foldl lib_write m ws !! k = m !! k.
Proof.
  intros Hk. revert m.
  induction ws as [|[k' v] ws IH]; intros m; [reflexivity|].
  cbn [foldl]. rewrite IH. unfold lib_write. cbn [fst snd].
  destruct v as [v|].
  - apply lookup_insert_ne, Hk.
  - apply lookup_delete_ne, Hk.
Qed.

(** ** What each step does to the state *)

Ltac unfold_m :=
  unfold bind, ret, raise, lift, log_call, run_lib, on_client,
    session_get, session_set, session_pop, session_getitem, session_clear,
    response_json, try_except in *;
  unfold with_session in *;
  cbn [session calls fst snd] in *.

Lemma get_token_frame (w : World) (req : Request) (p : option OAuthProvider)
    (st : pystate) (k : string) :
  app_key k -> session (snd (get_token w req p st)) !! k = session st !! k.
Proof.
  intros Hk. unfold get_token, clients_get.
  destruct p as [[| |]|]; cbn [is_linkedin]; unfold_m;
    try (apply lib_writes_frame, Hk); try reflexivity.
  destruct (httpx_post w _ _) as [e|resp]; [reflexivity|].
  destruct (negb _); [reflexivity|].
  destruct (json_body resp); reflexivity.
Qed.

(** The profile fetch swallows every exception and leaves the session alone. *)
Lemma fetch_user_data_total (w : World) (p : option OAuthProvider) (token : json)
    (st : pystate) :
  exists u st', fetch_user_data w p token st = (inr u, st')
                /\ session st' = session st.
Proof.
  unfold fetch_user_data, client_get_logged, clients_get.
  destruct p as [[| |]|]; cbn [is_linkedin is_facebook]; unfold_m;
    try (destruct (client_get w _ _ _) as [e|resp]; [eauto|];
         destruct (status_code resp =? 200)%Z; [|eauto];
         destruct (json_body resp); eauto);
    eauto.
Qed.

(** A truthy result of the fetch is the JSON body of a 200 response. *)
Lemma fetch_user_data_truthy (w : World) (p : option OAuthProvider) (token : json)
    (st st' : pystate) (u : json) :
  fetch_user_data w p token st = (inr u, st') -> truthy u = true ->
  exists c resp,
    p = Some c /\ client_get w c (userinfo_url c) token = inr resp
    /\ status_code resp = 200%Z /\ json_body resp = Some u.
Proof.
  unfold fetch_user_data, client_get_logged, clients_get.
  destruct p as [c|]; cbn [is_linkedin is_facebook]; unfold_m.
  - intros H Hu. exists c.
    destruct c; cbn [is_linkedin is_facebook userinfo_url] in *;
      (destruct (client_get w _ _ _) as [e|resp]; cbn in H;
       [injection H as <- _; discriminate|];
       destruct (status_code resp =? 200)%Z eqn:Hs; cbn in H;
       [|injection H as <- _; discriminate];
       destruct (json_body resp) as [j|] eqn:Hj; cbn in H;
       [|injection H as <- _; discriminate];
       injection H as <- _; exists resp;
       apply Z.eqb_eq in Hs; auto).
  - intros H Hu. injection H as <- _. discriminate.
Qed.

(** ** The callback, gate by gate *)

Lemma callback_rejected (w : World) (req : Request) (p : option OAuthProvider)
    (st : pystate) :
  state_accepted st req = false ->
  handle_oauth_callback w req p st = (inl InvalidStateError, st).
Proof.
  unfold state_accepted, handle_oauth_callback. intros H.
  apply negb_false_iff in H. unfold_m. rewrite H. reflexivity.
Qed.

Lemma callback_accepted (w : World) (req : Request) (p : option OAuthProvider)
    (st : pystate) :
  state_accepted st req = true ->
  handle_oauth_callback w req p st =
    match get_token w req p (after_pop st) with
    | (inl e, st2) => (inl e, st2)
    | (inr token, st2) =>
        match fetch_user_data w p token st2 with
        | (inl e, st3) => (inl e, st3)
        | (inr user_data, st3) =>
            if negb (truthy user_data) then (inl ProfileFetchError, st3)
            else
              (inr (Redirect
                      (from_option id (JStr url_for_success)
                         (<["user_data" := user_data]> (session st3)
                            !! "redirect_path"))),
               {| session :=
                    delete "redirect_path"
                      (<["user_data" := user_data]> (session st3));
                  calls := calls st3 |})
        end
    end.
Proof.
  unfold state_accepted, handle_oauth_callback, after_pop. intros H.
  apply negb_true_iff in H. unfold_m. rewrite H.
  destruct (get_token w req p _) as [[e|token] st2]; [reflexivity|].
  destruct (fetch_user_data w p token st2) as [[e|u] st3]; [reflexivity|].
  destruct (negb (truthy u)); reflexivity.
Qed.

(** Once the first gate is passed the nonce is gone, whatever follows. *)
Lemma callback_accepted_nonce (w : World) (req : Request)
    (p : option OAuthProvider) (st : pystate) :
  state_accepted st req = true ->
  session (snd (handle_oauth_callback w req p st)) !! "oauth_state" = None.
Proof.
  intros H. rewrite (callback_accepted _ _ _ _ H).
  pose proof (get_token_frame w req p (after_pop st) "oauth_state"
                app_key_oauth_state) as Ht.
  cbn [after_pop session] in Ht. rewrite lookup_delete_eq in Ht.
  destruct (get_token w req p (after_pop st)) as [[e|token] st2];
    cbn [snd] in *; [exact Ht|].
  destruct (fetch_user_data_total w p token st2) as (u & st3 & -> & Hs).
  destruct (negb (truthy u)); cbn [snd session].
  - rewrite Hs. exact Ht.
  - rewrite lookup_delete_ne by discriminate.
    rewrite lookup_insert_ne by discriminate.
    rewrite Hs. exact Ht.
Qed.

(** A failed callback never changes [user_data]. *)
Lemma callback_failure_keeps_user_data (w : World) (req : Request)
    (p : option OAuthProvider) (st : pystate) (e : exn) :
  fst (handle_oauth_callback w req p st) = inl e ->
  session (snd (handle_oauth_callback w req p st)) !! "user_data"
  = session st !! "user_data".
Proof.
  destruct (state_accepted st req) eqn:H.
  - rewrite (callback_accepted _ _ _ _ H).
    pose proof (get_token_frame w req p (after_pop st) "user_data"
                  app_key_user_data) as Ht.
    cbn [after_pop session] in Ht.
    rewrite lookup_delete_ne in Ht by discriminate.
    destruct (get_token w req p (after_pop st)) as [[e'|token] st2];
      cbn [fst snd] in *; [intros _; exact Ht|].
    destruct (fetch_user_data_total w p token st2) as (u & st3 & -> & Hs).
    destruct (negb (truthy u)); cbn [fst snd]; [|discriminate].
    intros _. rewrite Hs. exact Ht.
  - rewrite (callback_rejected _ _ _ _ H). reflexivity.
Qed.

(** A callback that returns has passed all three gates. *)
Lemma callback_success (w : World) (req : Request) (p : option OAuthProvider)
    (st : pystate) (r : response) :
  fst (handle_oauth_callback w req p st) = inr r ->
  exists token st2 user_data st3,
    state_accepted st req = true
    /\ get_token w req p (after_pop st) = (inr token, st2)
    /\ fetch_user_data w p token st2 = (inr user_data, st3)
    /\ truthy user_data = true
    /\ (forall k, app_key k ->
          session st3 !! k = delete "oauth_state" (session st) !! k)
    /\ handle_oauth_callback w req p st
       = (inr (Redirect (from_option id (JStr url_for_success)
                           (session st !! "redirect_path"))),
          {| session :=
               delete "redirect_path" (<["user_data" := user_data]> (session st3));
             calls := calls st3 |}).
Proof.
  destruct (state_accepted st req) eqn:H.
  2:{ rewrite (callback_rejected _ _ _ _ H). discriminate. }
  rewrite (callback_accepted _ _ _ _ H).
  destruct (get_token w req p (after_pop st)) as [[e|token] st2] eqn:Ht;
    [discriminate|].
  destruct (fetch_user_data_total w p token st2) as (u & st3 & Hf & Hs).
  rewrite Hf.
  destruct (truthy u) eqn:Hu; cbn [negb fst]; [|discriminate].
  intros _. exists token, st2, u, st3.
  assert (Hfr : forall k, app_key k ->
                  session st3 !! k = delete "oauth_state" (session st) !! k).
  { intros k Hk. rewrite Hs.
    pose proof (get_token_frame w req p (after_pop st) k Hk) as Hg.
    rewrite Ht in Hg. exact Hg. }
  repeat split; try assumption; try reflexivity.
  do 3 f_equal.
  rewrite lookup_insert_ne by discriminate.
  rewrite (Hfr _ app_key_redirect_path).
  rewrite lookup_delete_ne by discriminate. reflexivity.
Qed.

(** * The claims *)

(** ** C1: single use of the nonce *)



(** ** C2: a mismatching state never reaches the token exchange *)

Lemma mismatch_not_accepted (st : pystate) (req : Request) :
  session st !! "oauth_state" = None
  \/ session st !! "oauth_state" <> JStr <$> args_get (args req) "state" ->
  state_accepted st req = false.
Proof.
  unfold state_accepted. intros H. apply negb_false_iff.
  destruct (session st !! "oauth_state") as [j|]; [|reflexivity].
  destruct H as [H|H]; [discriminate|].
  destruct j; try (cbn; destruct (_ : bool); reflexivity);
    try (cbn; rewrite orb_true_r; reflexivity).
  cbn. destruct (args_get (args req) "state") as [r|];
    [|apply orb_true_r].
  destruct (String.eqb_spec s r) as [->|Hne]; [|apply orb_true_r].
  exfalso. apply H. reflexivity.
Qed.

(** C2: when no nonce is stored, or the stored one differs from the
    [state] query parameter, the callback raises the invalid-state error
    and leaves the whole state as it was: the session is untouched and the
    log of outbound calls has not grown, so no token request was made. *)
Theorem C2_state_mismatch_rejected_before_exchange (w : World) (req : Request)
    (p : option OAuthProvider) (st : pystate) :
  session st !! "oauth_state" = None
  \/ session st !! "oauth_state" <> JStr <$> args_get (args req) "state" ->
  handle_oauth_callback w req p st = (inl InvalidStateError, st).
Proof. intros H. apply callback_rejected, mismatch_not_accepted, H. Qed.

Lemma C2_state_mismatch_witness :
  handle_oauth_callback (Demo.world x00) (Demo.callback_request "forged")
    (Some LINKEDIN) (Demo.waiting Demo.nonce00)
  = (inl InvalidStateError, Demo.waiting Demo.nonce00).
Proof.
  apply C2_state_mismatch_rejected_before_exchange.
  right. vm_compute. discriminate.
Defined.

(** ** C3: a missing credential at process start *)

Lemma Config_init_missing (env : gmap string string) :
  Startup.missing_credential env -> Startup.Config_init env = inl ValidationError.
Proof.
  intros (k & Hin & Hk). unfold Startup.Config_init.
  destruct (negb (Startup.known_keys env)); [reflexivity|].
  destruct (match env !! "DEBUG" with
            | Some s => Startup.parse_bool s
            | None => Some false
            end); [|reflexivity].
  cbn in Hin.
  destruct Hin as [<-|[<-|[<-|[<-|[<-|[<-|[]]]]]]]; rewrite Hk;
    repeat (match goal with
            | |- context [match ?o with Some _ => _ | None => _ end] =>
                destruct o
            end);
    reflexivity.
Qed.

(** C3, as stated, fails: the validation error raised by [Config()] is
    caught and printed inside the configuration module, so it is not the
    error the start of the process ends with. With an empty environment
    [create_app] ends with the import error for the unbound [settings]. *)
Lemma C3_startup_error_is_not_configuration_error :
  ~ (forall env : gmap string string,
        Startup.missing_credential env ->
        Startup.create_app env = inl ConfigurationError).
Proof.
  intros H. specialize (H ∅).
  assert (Hm : Startup.missing_credential ∅).
  { exists "GOOGLE_CLIENT_ID". split; [left; reflexivity | reflexivity]. }
  specialize (H Hm). vm_compute in H. discriminate.
Qed.

(** C3 (amended): when one of the six credentials is missing, [Config()]
    raises the validation error, the configuration module catches it and
    leaves [settings] unbound, and the start of the process fails with the
    import error for [settings]: no application object is built, so no
    request is served. *)
Theorem C3_missing_credential_stops_startup (env : gmap string string) :
  Startup.missing_credential env ->
  Startup.Config_init env = inl ConfigurationError
  /\ Startup.config_module env = inr None
  /\ Startup.create_app env = inl (ImportError "settings").
Proof.
  intros H. pose proof (Config_init_missing env H) as Hc.
  unfold Startup.create_app, Startup.routes_auth_module,
    Startup.services_oauth_module, Startup.import_settings,
    Startup.config_module.
  rewrite Hc. repeat split.
Qed.

Lemma C3_missing_credential_witness :
  Startup.Config_init {[ "GOOGLE_CLIENT_ID" := "g-id" ]} = inl ConfigurationError
  /\ Startup.config_module {[ "GOOGLE_CLIENT_ID" := "g-id" ]} = inr None
  /\ Startup.create_app {[ "GOOGLE_CLIENT_ID" := "g-id" ]}
     = inl (ImportError "settings").
Proof.
  apply C3_missing_credential_stops_startup.
  exists "LINKEDIN_CLIENT_SECRET". split; [vm_compute; tauto | reflexivity].
Defined.

(** ** C4: what is written to [user_data] *)

(** C4, as stated, fails: nothing maps field names. A LinkedIn profile
    names the identifier [sub] and carries [locale]; the callback succeeds
    and stores that object as it came, and answers with a redirect. *)
Lemma C4_profile_stored_unnormalized :
  ~ (forall (w : World) (req : Request) (p : option OAuthProvider)
            (st : pystate) (r : response),
        fst (handle_oauth_callback w req p st) = inr r ->
        exists profile,
          session (snd (handle_oauth_callback w req p st)) !! "user_data"
          = Some profile
          /\ spec_normalized profile = true).
Proof.
  intros H.
  destruct (H (Demo.world x00) (Demo.callback_request Demo.nonce00)
              (Some LINKEDIN) (Demo.waiting Demo.nonce00)
              (Redirect (JStr url_for_success)))
    as (profile & Hs & Hn); [vm_compute; reflexivity|].
  vm_compute in Hs. injection Hs as <-. vm_compute in Hn. discriminate.
Qed.

(** C4 (amended): after a successful callback the value under
    [user_data] is the JSON body of the provider's 200 response to the
    profile request, exactly as received (no field is renamed, added or
    dropped), it is truthy, and the callback itself returns a redirect. *)
Theorem C4_profile_stored_verbatim (w : World) (req : Request)
    (p : option OAuthProvider) (st : pystate) (r : response) :
  fst (handle_oauth_callback w req p st) = inr r ->
  exists c token resp body,
    p = Some c
    /\ client_get w c (userinfo_url c) token = inr resp
    /\ status_code resp = 200%Z
    /\ json_body resp = Some body
    /\ truthy body = true
    /\ session (snd (handle_oauth_callback w req p st)) !! "user_data" = Some body
    /\ exists location, r = Redirect location.
Proof.
  destruct (state_accepted st req) eqn:H.
  2:{ rewrite (callback_rejected _ _ _ _ H). discriminate. }
  rewrite (callback_accepted _ _ _ _ H).
  destruct (get_token w req p (after_pop st)) as [[e|token] st2];
    [discriminate|].
  destruct (fetch_user_data w p token st2) as [[e|u] st3] eqn:Hf;
    [discriminate|].
  destruct (truthy u) eqn:Hu; cbn [negb fst snd session]; [|discriminate].
  intros Hr. injection Hr as <-.
  destruct (fetch_user_data_truthy _ _ _ _ _ _ Hf Hu)
    as (c & resp & -> & Hg & Hs & Hb).
  exists c, token, resp, u. repeat split; try assumption.
  - rewrite lookup_delete_ne by discriminate. apply lookup_insert_eq.
  - eexists. reflexivity.
Qed.

Lemma C4_profile_stored_verbatim_witness :
  exists c token resp body,
    Some LINKEDIN = Some c
    /\ client_get (Demo.world x00) c (userinfo_url c) token = inr resp
    /\ status_code resp = 200%Z
    /\ json_body resp = Some body
    /\ truthy body = true
    /\ session (snd (handle_oauth_callback (Demo.world x00)
                       (Demo.callback_request Demo.nonce00) (Some LINKEDIN)
                       (Demo.waiting Demo.nonce00))) !! "user_data" = Some body
    /\ exists location, Redirect (JStr url_for_success) = Redirect location.
Proof.
  apply C4_profile_stored_verbatim. vm_compute. reflexivity.
Defined.

(** ** C5: provider identifiers outside the three supported ones *)

Lemma get_provider_unknown (name : string) :
  name <> "google" -> name <> "facebook" -> name <> "linkedin" ->
  get_provider name = None.
Proof.
  intros Hg Hf Hl. unfold get_provider. cbn [provider_value].
  destruct (String.eqb_spec name "google"); [contradiction|].
  destruct (String.eqb_spec name "linkedin"); [contradiction|].
  destruct (String.eqb_spec name "facebook"); [contradiction|].
  reflexivity.
Qed.

(** C5, as stated, fails: the lookup itself raises nothing (it returns
    [None]), and the callback has no check for an unresolved provider. For
    the identifier [twitter] and a matching state the callback passes the
    first gate and then fails on the missing client object. *)
Lemma C5_unknown_provider_callback_not_reported :
  ~ (forall (name : string) (w : World) (req : Request) (st : pystate),
        name <> "google" -> name <> "facebook" -> name <> "linkedin" ->
        fst (handle_oauth_callback w req (get_provider name) st)
        = inl UnknownProviderError).
Proof.
  intros H.
  specialize (H "twitter" (Demo.world x00) (Demo.callback_request Demo.nonce00)
                (Demo.waiting Demo.nonce00)).
  vm_compute in H.
  assert (Hf : inl (B := response)
                 (AttributeError
                    "'NoneType' object has no attribute 'authorize_access_token'")
               = inl UnknownProviderError)
    by (apply H; discriminate).
  discriminate.
Qed.

(** C5 (amended): for an identifier that is none of [google], [facebook],
    [linkedin] the lookup returns [None] and raises nothing; [start] on
    that result fails with the unsupported-provider error and leaves the
    session and the call log as they were. *)
Theorem C5_unknown_provider_start_rejected (name : string) (w : World)
    (req : Request) (st : pystate) :
  name <> "google" -> name <> "facebook" -> name <> "linkedin" ->
  get_provider name = None
  /\ initiate_social_login w req (get_provider name) st
     = (inl UnknownProviderError, st).
Proof.
  intros Hg Hf Hl. rewrite (get_provider_unknown name Hg Hf Hl).
  split; reflexivity.
Qed.

Lemma C5_unknown_provider_witness :
  get_provider "twitter" = None
  /\ initiate_social_login (Demo.world x00) Demo.start_request
       (get_provider "twitter") Demo.fresh
     = (inl UnknownProviderError, Demo.fresh).
Proof.
  apply C5_unknown_provider_start_rejected; discriminate.
Defined.

(** ** C6: a token endpoint that answers with an error *)

Lemma get_token_linkedin_rejected (w : World) (req : Request) (st : pystate)
    (resp : http_response) :
  httpx_post w linkedin_access_token_url (linkedin_token_data w req) = inr resp ->
  status_code resp <> 200%Z ->
  get_token w req (Some LINKEDIN) st
  = (inl (TokenExchangeError (text resp)),
     {| session := session st;
        calls := calls st ++ [CallTokenPost linkedin_access_token_url
                                (linkedin_token_data w req)] |}).
Proof.
  intros Hp Hs. unfold get_token. cbn [is_linkedin]. unfold_m. rewrite Hp.
  apply Z.eqb_neq in Hs. rewrite Hs. reflexivity.
Qed.

(** Whatever the token step raises is what the callback raises. *)
Lemma callback_token_failure (w : World) (req : Request)
    (p : option OAuthProvider) (st st2 : pystate) (e : exn) :
  state_accepted st req = true ->
  get_token w req p (after_pop st) = (inl e, st2) ->
  handle_oauth_callback w req p st = (inl e, st2).
Proof. intros H Ht. rewrite (callback_accepted _ _ _ _ H), Ht. reflexivity. Qed.

(** For Google and Facebook the token step is one call into the client
    library, with no check of its own: whatever that call raises is what
    the callback raises. *)
Lemma callback_library_token_error (w : World) (req : Request)
    (c : OAuthProvider) (st : pystate) (e : exn) :
  c <> LINKEDIN ->
  state_accepted st req = true ->
  lib_result (client_authorize_access_token w c req
                (delete "oauth_state" (session st))) = inl e ->
  fst (handle_oauth_callback w req (Some c) st) = inl e.
Proof.
  intros Hc H He. rewrite (callback_accepted _ _ _ _ H).
  unfold get_token, clients_get.
  destruct c; [| |contradiction]; cbn [is_linkedin]; unfold_m;
    unfold after_pop; cbn [session]; rewrite He; reflexivity.
Qed.

(** C6 (defect of the code): the claim is what [get_token] documents
    ("Raises: BadRequest: If token retrieval fails") and what its LinkedIn
    branch does, but the branch for Google and Facebook returns the
    library call unguarded. Evaluated where the stored nonce matches, the
    provider is Google and the token endpoint answers 401 (the library
    raises its own error): the callback ends with the library's error,
    which is no token-exchange [BadRequest], whatever text it would carry. *)
Lemma C6_library_error_is_not_token_exchange_error :
  fst (handle_oauth_callback Demo.world_401 (Demo.callback_request Demo.nonce00)
         (Some GOOGLE) (Demo.waiting Demo.nonce00))
  = inl (LibraryError "invalid_client")
  /\ forall raw_text,
       fst (handle_oauth_callback Demo.world_401
              (Demo.callback_request Demo.nonce00) (Some GOOGLE)
              (Demo.waiting Demo.nonce00))
       <> inl (TokenExchangeError raw_text).
Proof.
  assert (H : fst (handle_oauth_callback Demo.world_401
                     (Demo.callback_request Demo.nonce00) (Some GOOGLE)
                     (Demo.waiting Demo.nonce00))
              = inl (LibraryError "invalid_client"))
    by (vm_compute; reflexivity).
  split; [exact H|]. intros raw. rewrite H. discriminate.
Qed.

(** X26: for LinkedIn, whose token request the source makes itself, a
    callback that passes state validation and gets a non-200 answer fails
    with the [BadRequest] "Failed to fetch access token: " followed by the
    response text; the nonce is gone, the profile is never requested, and
    [user_data] is what it was before the call. *)
Theorem X26_linkedin_token_rejection (w : World) (req : Request) (st : pystate)
    (resp : http_response) :
  state_accepted st req = true ->
  httpx_post w linkedin_access_token_url (linkedin_token_data w req) = inr resp ->
  status_code resp <> 200%Z ->
  handle_oauth_callback w req (Some LINKEDIN) st
  = (inl (TokenExchangeError (text resp)),
     {| session := delete "oauth_state" (session st);
        calls := calls st ++ [CallTokenPost linkedin_access_token_url
                                (linkedin_token_data w req)] |})
  /\ session (snd (handle_oauth_callback w req (Some LINKEDIN) st)) !! "user_data"
     = session st !! "user_data".
Proof.
  intros H Hp Hs.
  pose proof (get_token_linkedin_rejected w req (after_pop st) resp Hp Hs) as Ht.
  split.
  - apply (callback_token_failure _ _ _ _ _ _ H Ht).
  - apply (callback_failure_keeps_user_data _ _ _ _ (TokenExchangeError (text resp))).
    rewrite (callback_token_failure _ _ _ _ _ _ H Ht). reflexivity.
Qed.

Lemma X26_linkedin_token_rejection_witness :
  handle_oauth_callback Demo.world_401 (Demo.callback_request Demo.nonce00)
    (Some LINKEDIN) (Demo.waiting Demo.nonce00)
  = (inl (TokenExchangeError "invalid_client"),
     {| session := delete "oauth_state" (session (Demo.waiting Demo.nonce00));
        calls := calls (Demo.waiting Demo.nonce00)
                 ++ [CallTokenPost linkedin_access_token_url
                       (linkedin_token_data Demo.world_401
                          (Demo.callback_request Demo.nonce00))] |})
  /\ session (snd (handle_oauth_callback Demo.world_401
                     (Demo.callback_request Demo.nonce00) (Some LINKEDIN)
                     (Demo.waiting Demo.nonce00))) !! "user_data"
     = session (Demo.waiting Demo.nonce00) !! "user_data".
Proof.
  apply (X26_linkedin_token_rejection Demo.world_401
           (Demo.callback_request Demo.nonce00) (Demo.waiting Demo.nonce00)
           Demo.unauthorized).
  - vm_compute. reflexivity.
  - reflexivity.
  - vm_compute. discriminate.
Defined.

(** ** C7: what [redirect_path] holds *)

(** What [start] leaves in the session under the application's keys. *)
Lemma start_session (w : World) (req : Request) (c : OAuthProvider)
    (st : pystate) (k : string) :
  app_key k ->
  session (snd (initiate_social_login w req (Some c) st)) !! k
  = <["oauth_state" := JStr (Hex.hex (urandom w 16))]>
      (<["redirect_path" :=
           JStr (url_for_auth_callback (settings w) req (provider_value c))]>
         (session st)) !! k.
Proof.
  intros Hk. unfold initiate_social_login, clients_get. unfold_m.
  match goal with
  | |- context [lib_result ?o] => destruct (lib_result o)
  end; cbn [snd session]; apply lib_writes_frame, Hk.
Qed.

Lemma callback_url_not_success (cfg : Config) (req : Request) (provider : string) :
  url_for_auth_callback cfg req provider <> url_for_success.
Proof.
  unfold url_for_auth_callback, url_scheme, url_for_success.
  destruct (DEBUG cfg); cbv [negb String.append]; discriminate.
Qed.

(** C7 (defect of the code): the callback documents "a redirect response
    to the success page", and the claim expects [redirect_path] to hold
    the post-login destination; but what [start] stores there, for every
    provider, is the OAuth callback URL it has just computed, which is
    never the success page. Evaluated on a full LinkedIn login ([start] on
    a new session, then the callback with the nonce echoed back): the
    callback stores the provider's profile under [user_data], removes
    [redirect_path], and returns a redirect to the callback URL itself;
    the route drops that response and redirects to the success page. *)
Theorem C7_redirect_path_is_callback_url :
  (forall (w : World) (req : Request) (c : OAuthProvider) (st : pystate),
      session (snd (initiate_social_login w req (Some c) st)) !! "redirect_path"
      = Some (JStr (url_for_auth_callback (settings w) req (provider_value c)))
      /\ url_for_auth_callback (settings w) req (provider_value c)
         <> url_for_success)
  /\ fst (handle_oauth_callback (Demo.world x00)
            (Demo.callback_request Demo.nonce00) (Some LINKEDIN) demo_started)
     = inr (Redirect (JStr "http://localhost:5000/auth/linkedin/callback"))
  /\ session (snd (handle_oauth_callback (Demo.world x00)
                     (Demo.callback_request Demo.nonce00) (Some LINKEDIN)
                     demo_started)) !! "user_data"
     = Some Demo.linkedin_profile
  /\ session (snd (handle_oauth_callback (Demo.world x00)
                     (Demo.callback_request Demo.nonce00) (Some LINKEDIN)
                     demo_started)) !! "redirect_path"
     = None
  /\ fst (auth_callback (Demo.world x00) (Demo.callback_request Demo.nonce00)
            "linkedin" demo_started)
     = inr (Redirect (JStr url_for_success)).
Proof.
  split.
  { intros w req c st. split; [|apply callback_url_not_success].
    rewrite (start_session _ _ _ _ _ app_key_redirect_path).
    rewrite lookup_insert_ne by discriminate. apply lookup_insert_eq. }
  repeat split; vm_compute; reflexivity.
Qed.

(** ** C8: the nonce of [start] *)

Lemma start_response (w : World) (req : Request) (c : OAuthProvider)
    (st : pystate) (r : response) :
  fst (initiate_social_login w req (Some c) st) = inr r ->
  r = AuthorizeRedirectResponse c
        (url_for_auth_callback (settings w) req (provider_value c))
        (Hex.hex (urandom w 16)).
Proof.
  unfold initiate_social_login, clients_get. unfold_m.
  match goal with
  | |- context [lib_result ?o] => destruct (lib_result o)
  end; cbn [fst]; congruence.
Qed.

(** C8: for each of the three providers, a [start] that returns hands
    back a redirect whose [state] is the hexadecimal rendering of the
    sixteen bytes drawn from [os.urandom]: thirty-two characters, hence
    not empty, and the same value is stored under [oauth_state]. Two
    [start] calls that drew different bytes carry different states. *)
Theorem C8_nonce_present_and_fresh (w1 w2 : World) (req1 req2 : Request)
    (c1 c2 : OAuthProvider) (st1 st2 : pystate) (r1 r2 : response) :
  length (urandom w1 16) = 16 ->
  fst (initiate_social_login w1 req1 (Some c1) st1) = inr r1 ->
  fst (initiate_social_login w2 req2 (Some c2) st2) = inr r2 ->
  (exists state,
      redirect_state r1 = Some state
      /\ state = Hex.hex (urandom w1 16)
      /\ String.length state = 32
      /\ state <> ""
      /\ session (snd (initiate_social_login w1 req1 (Some c1) st1))
           !! "oauth_state" = Some (JStr state))
  /\ (urandom w1 16 <> urandom w2 16 -> redirect_state r1 <> redirect_state r2).
Proof.
  intros Hlen H1 H2.
  apply start_response in H1 as ->. apply start_response in H2 as ->.
  cbn [redirect_state]. split.
  - exists (Hex.hex (urandom w1 16)).
    assert (Hl : String.length (Hex.hex (urandom w1 16)) = 32)
      by (rewrite hex_length, Hlen; reflexivity).
    repeat split; try assumption.
    + intros He. rewrite He in Hl. discriminate.
    + rewrite (start_session _ _ _ _ _ app_key_oauth_state).
      apply lookup_insert_eq.
  - intros Hne He. apply Hne, hex_inj. congruence.
Qed.

Lemma C8_nonce_witness :
  (exists state,
      redirect_state
        (AuthorizeRedirectResponse GOOGLE
           "http://localhost:5000/auth/google/callback" Demo.nonce00)
      = Some state
      /\ state = Hex.hex (urandom (Demo.world x00) 16)
      /\ String.length state = 32
      /\ state <> ""
      /\ session (snd (initiate_social_login (Demo.world x00) Demo.start_request
                         (Some GOOGLE) Demo.fresh))
           !! "oauth_state" = Some (JStr state))
  /\ (urandom (Demo.world x00) 16 <> urandom (Demo.world xff) 16 ->
      redirect_state
        (AuthorizeRedirectResponse GOOGLE
           "http://localhost:5000/auth/google/callback" Demo.nonce00)
      <> redirect_state
           (AuthorizeRedirectResponse FACEBOOK
              "http://localhost:5000/auth/facebook/callback"
              (Hex.hex (replicate 16 xff)))).
Proof.
  apply (C8_nonce_present_and_fresh (Demo.world x00) (Demo.world xff)
           Demo.start_request Demo.start_request GOOGLE FACEBOOK
           Demo.fresh Demo.fresh).
  - reflexivity.
  - vm_compute. reflexivity.
  - vm_compute. reflexivity.
Defined.

(** ** C9: logout *)

(** C9: whatever the session holds, logout empties it, so [user_data],
    [oauth_state] and [redirect_path] are gone, and it redirects to the
    entry page; a read of the profile afterwards finds nothing: the
    success page sends the browser to the failure page and the entry page
    is rendered without a user. *)
Theorem C9_logout_clears_session (st : pystate) :
  fst (logout st) = inr (Redirect (JStr url_for_index))
  /\ session (snd (logout st)) = ∅
  /\ session (snd (logout st)) !! "user_data" = None
  /\ session (snd (logout st)) !! "oauth_state" = None
  /\ session (snd (logout st)) !! "redirect_path" = None
  /\ fst (session_get "user_data" (snd (logout st))) = inr None
  /\ fst (success (snd (logout st))) = inr (Redirect (JStr url_for_failure))
  /\ fst (index (snd (logout st)))
     = inr (RenderTemplate "index.html" [("user", None)]).
Proof.
  unfold logout, success, index. unfold_m.
  repeat split; rewrite ?lookup_empty; reflexivity.
Qed.

(** ** C10: the key the entry page reads *)

Lemma start_keeps_user (w : World) (req : Request) (p : option OAuthProvider)
    (st : pystate) :
  session (snd (initiate_social_login w req p st)) !! "user"
  = session st !! "user".
Proof.
  destruct p as [c|]; [|reflexivity].
  rewrite (start_session _ _ _ _ _ app_key_user).
  rewrite !lookup_insert_ne by discriminate. reflexivity.
Qed.

Lemma callback_keeps_user (w : World) (req : Request) (p : option OAuthProvider)
    (st : pystate) :
  session (snd (handle_oauth_callback w req p st)) !! "user"
  = session st !! "user".
Proof.
  destruct (state_accepted st req) eqn:H.
  2:{ rewrite (callback_rejected _ _ _ _ H). reflexivity. }
  rewrite (callback_accepted _ _ _ _ H).
  pose proof (get_token_frame w req p (after_pop st) "user" app_key_user) as Ht.
  cbn [after_pop session] in Ht.
  rewrite lookup_delete_ne in Ht by discriminate.
  destruct (get_token w req p (after_pop st)) as [[e|token] st2];
    cbn [snd] in *; [exact Ht|].
  destruct (fetch_user_data_total w p token st2) as (u & st3 & -> & Hs).
  destruct (negb (truthy u)); cbn [snd session].
  - rewrite Hs. exact Ht.
  - rewrite lookup_delete_ne by discriminate.
    rewrite lookup_insert_ne by discriminate.
    rewrite Hs. exact Ht.
Qed.

Lemma flash_keeps_user (message : string) (st : pystate) :
  session (snd (flash message st)) !! "user" = session st !! "user".
Proof.
  unfold flash. unfold_m.
  destruct (session st !! "_flashes") as [[]|]; cbn [snd session];
    try reflexivity; apply lookup_insert_ne; discriminate.
Qed.

(** No route writes the key [user]: a request leaves it as it was, or
    (logout) removes it. *)
Lemma dispatch_keeps_user_absent (w : World) (req : Request) (c : route_call)
    (st : pystate) :
  session st !! "user" = None ->
  session (snd (dispatch w req c st)) !! "user" = None.
Proof.
  intros H. destruct c as [|name|name| | |]; cbn [dispatch].
  - exact H.
  - unfold social_login, try_except.
    pose proof (start_keeps_user w req (get_provider name) st) as Hs.
    destruct (initiate_social_login w req (get_provider name) st)
      as [[e|r] st1]; cbn [snd] in *; [|congruence].
    unfold bind.
    pose proof (flash_keeps_user "Failed to initiate social login." st1) as Hf.
    destruct (flash "Failed to initiate social login." st1) as [[e'|[]] st2];
      unfold ret; cbn [snd] in *; congruence.
  - unfold auth_callback, try_except, bind.
    pose proof (callback_keeps_user w req (get_provider name) st) as Hs.
    destruct (handle_oauth_callback w req (get_provider name) st)
      as [[e|r] st1]; unfold ret; cbn [snd] in *; [congruence|].
    unfold session_getitem.
    destruct (session st1 !! "user_data") as [u|];
      [destruct (truthy u)|]; cbn [snd]; congruence.
  - unfold success. unfold_m. destruct (py_not _); exact H.
  - exact H.
  - unfold logout. unfold_m. apply lookup_empty.
Qed.

Lemma run_routes_user_absent (steps : list (World * Request * route_call)) :
  session (run_routes steps) !! "user" = None.
Proof.
  unfold run_routes.
  assert (G : forall st, session st !! "user" = None ->
                         session (foldl serve st steps) !! "user" = None).
  { induction steps as [|[[w req] c] steps IH]; intros st Hst; [exact Hst|].
    cbn [foldl]. apply IH. unfold serve. cbn [fst snd].
    apply dispatch_keeps_user_absent, Hst. }
  apply G. reflexivity.
Qed.

(** C10: the entry page reads the key [user]; no route writes that key
    (a successful callback writes the profile under [user_data]); so in
    every session state reached from a new session by any sequence of
    requests, in any worlds, the entry page is rendered without a user.
    This holds in particular in the state a fully successful login leaves,
    in which [user_data] holds the profile. *)
Theorem C10_index_never_shows_profile :
  (forall steps : list (World * Request * route_call),
      index (run_routes steps)
      = (inr (RenderTemplate "index.html" [("user", None)]), run_routes steps))
  /\ session (run_routes demo_login_requests) !! "user_data"
     = Some Demo.linkedin_profile
  /\ fst (success (run_routes demo_login_requests))
     = inr (RenderTemplate "success.html" [("user", Some Demo.linkedin_profile)])
  /\ fst (index (run_routes demo_login_requests))
     = inr (RenderTemplate "index.html" [("user", None)]).
Proof.
  assert (G : forall steps : list (World * Request * route_call),
             index (run_routes steps)
             = (inr (RenderTemplate "index.html" [("user", None)]),
                run_routes steps)).
  { intros steps. unfold index. unfold_m.
    rewrite run_routes_user_absent. reflexivity. }
  split; [exact G|]. split; [vm_compute; reflexivity|].
  split; [vm_compute; reflexivity|]. rewrite G. reflexivity.
Qed.

(** * Further properties of the code *)

(** ** Providers and their registrations *)

(** X1: the lookup inverts the enumeration's values: a name resolves to a
    provider exactly when it is that provider's value, so the three
    values are the only names that resolve. *)
Theorem X1_get_provider_inverts_value (name : string) (p : OAuthProvider) :
  get_provider name = Some p <-> name = provider_value p.
Proof.
  split.
  - unfold get_provider. cbn [provider_value].
    destruct (String.eqb_spec name "google") as [->|_];
      [intros [= <-]; reflexivity|].
    destruct (String.eqb_spec name "linkedin") as [->|_];
      [intros [= <-]; reflexivity|].
    destruct (String.eqb_spec name "facebook") as [->|_];
      [intros [= <-]; reflexivity|].
    discriminate.
  - intros ->. destruct p; reflexivity.
Qed.

(** X2: [get_secret_key] answers for exactly the names [get_provider]
    resolves, and then with the secret the client of that provider was
    registered with; for every other name it returns [None] and raises
    nothing. *)
Theorem X2_get_secret_key_agrees_with_registry (cfg : Config) (name : string) :
  get_secret_key cfg name
  = (fun p => reg_client_secret (_initialize_clients cfg p)) <$> get_provider name.
Proof.
  unfold get_secret_key, get_provider. cbn [provider_value].
  destruct (String.eqb_spec name "google") as [->|_]; [reflexivity|].
  destruct (String.eqb_spec name "facebook") as [->|_]; [reflexivity|].
  destruct (String.eqb_spec name "linkedin") as [->|_]; reflexivity.
Qed.

(** X3: each client is registered under its provider's value, so the name
    in a callback URL resolves back to the provider whose client built it;
    and the token request the source makes by hand for LinkedIn goes to
    the token URL and carries the credentials of the registered LinkedIn
    client. *)
Theorem X3_registrations_consistent (w : World) (req : Request) (p : OAuthProvider) :
  get_provider (reg_name (_initialize_clients (settings w) p)) = Some p
  /\ reg_access_token_url (_initialize_clients (settings w) LINKEDIN)
     = Some linkedin_access_token_url
  /\ In ("client_id",
         Some (reg_client_id (_initialize_clients (settings w) LINKEDIN)))
        (linkedin_token_data w req)
  /\ In ("client_secret",
         Some (reg_client_secret (_initialize_clients (settings w) LINKEDIN)))
        (linkedin_token_data w req).
Proof.
  split; [destruct p; reflexivity|]. split; [reflexivity|].
  unfold linkedin_token_data. cbn. tauto.
Qed.

(** ** Process start *)

Lemma mem_In (s : string) (l : list string) :
  Startup.mem s l = true <-> In s l.
Proof.
  unfold Startup.mem. rewrite existsb_exists. split.
  - intros (x & Hx & He). apply String.eqb_eq in He. subst. exact Hx.
  - intros H. exists s. split; [exact H|apply String.eqb_refl].
Qed.

Lemma known_keys_spec (env : gmap string string) :
  Startup.known_keys env = true
  <-> forall k, is_Some (env !! k) -> In k Startup.field_names.
Proof.
  unfold Startup.known_keys. rewrite forallb_forall. split.
  - intros H k [v Hv]. apply mem_In.
    apply (H (k, v)). apply list_elem_of_In, elem_of_map_to_list, Hv.
  - intros H [k v] Hin. apply mem_In, H.
    apply list_elem_of_In, elem_of_map_to_list in Hin. cbn [fst]. eauto.
Qed.

Lemma Config_init_ok_inv (env : gmap string string) (cfg : Config) :
  Startup.Config_init env = inr cfg ->
  complete_environment env
  /\ env !! "GOOGLE_CLIENT_ID" = Some (GOOGLE_CLIENT_ID cfg)
  /\ env !! "GOOGLE_CLIENT_SECRET" = Some (GOOGLE_CLIENT_SECRET cfg)
  /\ env !! "FACEBOOK_CLIENT_ID" = Some (FACEBOOK_CLIENT_ID cfg)
  /\ env !! "FACEBOOK_CLIENT_SECRET" = Some (FACEBOOK_CLIENT_SECRET cfg)
  /\ env !! "LINKEDIN_CLIENT_ID" = Some (LINKEDIN_CLIENT_ID cfg)
  /\ env !! "LINKEDIN_CLIENT_SECRET" = Some (LINKEDIN_CLIENT_SECRET cfg)
  /\ (env !! "DEBUG" = None -> DEBUG cfg = false).
Proof.
  unfold Startup.Config_init, complete_environment.
  destruct (Startup.known_keys env) eqn:Hk; cbn [negb]; [|discriminate].
  pose proof (proj1 (known_keys_spec env) Hk) as Hkeys. clear Hk.
  destruct (env !! "DEBUG") as [d|] eqn:Hd.
  - destruct (Startup.parse_bool d) as [b|] eqn:Hb; [|discriminate].
    destruct (env !! "GOOGLE_CLIENT_ID") as [gi|] eqn:H1; [|discriminate].
    destruct (env !! "GOOGLE_CLIENT_SECRET") as [gs|] eqn:H2; [|discriminate].
    destruct (env !! "FACEBOOK_CLIENT_ID") as [fi|] eqn:H3; [|discriminate].
    destruct (env !! "FACEBOOK_CLIENT_SECRET") as [fs|] eqn:H4; [|discriminate].
    destruct (env !! "LINKEDIN_CLIENT_ID") as [li|] eqn:H5; [|discriminate].
    destruct (env !! "LINKEDIN_CLIENT_SECRET") as [ls|] eqn:H6; [|discriminate].
    intros [= <-]. cbn. repeat split; try discriminate; try exact Hkeys.
    + intros k [<-|[<-|[<-|[<-|[<-|[<-|[]]]]]]]; eauto.
    + intros s [= <-]. rewrite Hb. eauto.
  - destruct (env !! "GOOGLE_CLIENT_ID") as [gi|] eqn:H1; [|discriminate].
    destruct (env !! "GOOGLE_CLIENT_SECRET") as [gs|] eqn:H2; [|discriminate].
    destruct (env !! "FACEBOOK_CLIENT_ID") as [fi|] eqn:H3; [|discriminate].
    destruct (env !! "FACEBOOK_CLIENT_SECRET") as [fs|] eqn:H4; [|discriminate].
    destruct (env !! "LINKEDIN_CLIENT_ID") as [li|] eqn:H5; [|discriminate].
    destruct (env !! "LINKEDIN_CLIENT_SECRET") as [ls|] eqn:H6; [|discriminate].
    intros [= <-]. cbn. repeat split; try discriminate; try exact Hkeys.
    intros k [<-|[<-|[<-|[<-|[<-|[<-|[]]]]]]]; eauto.
Qed.

Lemma Config_init_complete (env : gmap string string) :
  complete_environment env -> exists cfg, Startup.Config_init env = inr cfg.
Proof.
  intros (Hreq & Hdbg & Hkeys). unfold Startup.Config_init.
  rewrite (proj2 (known_keys_spec env) Hkeys). cbn [negb].
  assert (Hd : exists d,
             match env !! "DEBUG" with
             | Some s => Startup.parse_bool s
             | None => Some false
             end = Some d).
  { destruct (env !! "DEBUG") as [s|]; [|eauto].
    destruct (Hdbg s eq_refl) as [d Hd]. eauto. }
  destruct Hd as [d ->].
  destruct (Hreq "GOOGLE_CLIENT_ID") as [? ->]; [cbn; tauto|].
  destruct (Hreq "GOOGLE_CLIENT_SECRET") as [? ->]; [cbn; tauto|].
  destruct (Hreq "FACEBOOK_CLIENT_ID") as [? ->]; [cbn; tauto|].
  destruct (Hreq "FACEBOOK_CLIENT_SECRET") as [? ->]; [cbn; tauto|].
  destruct (Hreq "LINKEDIN_CLIENT_ID") as [? ->]; [cbn; tauto|].
  destruct (Hreq "LINKEDIN_CLIENT_SECRET") as [? ->]; [cbn; tauto|].
  eauto.
Qed.

Lemma create_app_of_Config_init (env : gmap string string) :
  Startup.create_app env
  = match Startup.Config_init env with
    | inr cfg =>
        inr {| Startup.app_service := {| Startup.service_settings := cfg |} |}
    | inl ValidationError => inl (ImportError "settings")
    | inl e => inl e
    end.
Proof.
  unfold Startup.create_app, Startup.routes_auth_module,
    Startup.services_oauth_module, Startup.import_settings,
    Startup.config_module.
  destruct (Startup.Config_init env) as [[]|cfg]; reflexivity.
Qed.

(** X4: the application is created exactly when the six credentials are
    all present, [DEBUG], if given, parses as a boolean, and no entry
    names something that is not a field (an extra key of the [.env] file
    stops the start like a missing credential); a value that is present
    but empty counts as present. *)
Theorem X4_create_app_succeeds_iff_complete (env : gmap string string) :
  (exists app, Startup.create_app env = inr app) <-> complete_environment env.
Proof.
  rewrite create_app_of_Config_init. split.
  - intros [app H].
    destruct (Startup.Config_init env) as [e|cfg] eqn:Hc.
    + destruct e; discriminate.
    + apply (Config_init_ok_inv env cfg Hc).
  - intros H. destruct (Config_init_complete env H) as [cfg ->]. eauto.
Qed.

(** X5: the settings of a created application are the values of the
    configuration source, unchanged, and [DEBUG] is off when it is not
    given. *)
Theorem X5_created_app_carries_environment (env : gmap string string)
    (app : Startup.App) :
  Startup.create_app env = inr app ->
  let cfg := Startup.service_settings (Startup.app_service app) in
  env !! "GOOGLE_CLIENT_ID" = Some (GOOGLE_CLIENT_ID cfg)
  /\ env !! "GOOGLE_CLIENT_SECRET" = Some (GOOGLE_CLIENT_SECRET cfg)
  /\ env !! "FACEBOOK_CLIENT_ID" = Some (FACEBOOK_CLIENT_ID cfg)
  /\ env !! "FACEBOOK_CLIENT_SECRET" = Some (FACEBOOK_CLIENT_SECRET cfg)
  /\ env !! "LINKEDIN_CLIENT_ID" = Some (LINKEDIN_CLIENT_ID cfg)
  /\ env !! "LINKEDIN_CLIENT_SECRET" = Some (LINKEDIN_CLIENT_SECRET cfg)
  /\ (env !! "DEBUG" = None -> DEBUG cfg = false).
Proof.
  rewrite create_app_of_Config_init.
  destruct (Startup.Config_init env) as [e|cfg] eqn:Hc.
  - destruct e; discriminate.
  - intros [= <-]. cbn. apply (Config_init_ok_inv env cfg Hc).
Qed.

Lemma X5_created_app_witness :
  let cfg := Startup.service_settings (Startup.app_service demo_app) in
  demo_environment !! "GOOGLE_CLIENT_ID" = Some (GOOGLE_CLIENT_ID cfg)
  /\ demo_environment !! "GOOGLE_CLIENT_SECRET" = Some (GOOGLE_CLIENT_SECRET cfg)
  /\ demo_environment !! "FACEBOOK_CLIENT_ID" = Some (FACEBOOK_CLIENT_ID cfg)
  /\ demo_environment !! "FACEBOOK_CLIENT_SECRET" = Some (FACEBOOK_CLIENT_SECRET cfg)
  /\ demo_environment !! "LINKEDIN_CLIENT_ID" = Some (LINKEDIN_CLIENT_ID cfg)
  /\ demo_environment !! "LINKEDIN_CLIENT_SECRET" = Some (LINKEDIN_CLIENT_SECRET cfg)
  /\ (demo_environment !! "DEBUG" = None -> DEBUG cfg = false).
Proof.
  apply (X5_created_app_carries_environment demo_environment demo_app).
  vm_compute. reflexivity.
Defined.

(** ** The nonce and the first gate *)

Lemma digit_is_hex (n : N) : is_hex_char (Hex.digit n) = true.
Proof.
  unfold Hex.digit. destruct n as [|p]; [reflexivity|].
  do 4 (destruct p as [p|p|]; try reflexivity).
Qed.

(** X6: the nonce is written with the characters [0-9a-f] only, two per
    byte, whatever the bytes. *)
Theorem X6_hex_alphabet_and_length (bs : list Byte.byte) :
  string_forall is_hex_char (Hex.hex bs) = true
  /\ String.length (Hex.hex bs) = 2 * length bs.
Proof.
  split; [|apply hex_length].
  induction bs as [|b bs IH]; [reflexivity|].
  cbn [Hex.hex string_forall]. rewrite !digit_is_hex, IH. reflexivity.
Qed.

Lemma start_nonce_stored (w : World) (req : Request) (c : OAuthProvider)
    (st : pystate) :
  session (snd (initiate_social_login w req (Some c) st)) !! "oauth_state"
  = Some (JStr (Hex.hex (urandom w 16))).
Proof.
  rewrite (start_session _ _ _ _ _ app_key_oauth_state). apply lookup_insert_eq.
Qed.

Lemma hex16_nonempty (bs : list Byte.byte) :
  length bs = 16 -> String.eqb (Hex.hex bs) "" = false.
Proof.
  intros H. destruct bs as [|b bs]; [discriminate|]. reflexivity.
Qed.

Lemma accepted_after_start (w : World) (req0 req : Request) (c : OAuthProvider)
    (st0 : pystate) :
  length (urandom w 16) = 16 ->
  state_accepted (snd (initiate_social_login w req0 (Some c) st0)) req
  = match args_get (args req) "state" with
    | Some s => String.eqb (Hex.hex (urandom w 16)) s
    | None => false
    end.
Proof.
  intros Hlen. unfold state_accepted. rewrite start_nonce_stored.
  cbn [py_not truthy py_ne]. rewrite (hex16_nonempty _ Hlen). cbn [negb orb].
  destruct (args_get (args req) "state") as [s|]; [|reflexivity].
  apply negb_involutive.
Qed.

(** X7: after a [start], the callback passes the state check exactly when
    the [state] query parameter is the nonce that [start] generated. *)
Theorem X7_callback_accepts_exactly_the_issued_nonce (w : World)
    (req0 req : Request) (c : OAuthProvider) (st0 : pystate) :
  length (urandom w 16) = 16 ->
  (state_accepted (snd (initiate_social_login w req0 (Some c) st0)) req = true
   <-> args_get (args req) "state" = Some (Hex.hex (urandom w 16))).
Proof.
  intros Hlen. rewrite (accepted_after_start _ _ _ _ _ Hlen).
  destruct (args_get (args req) "state") as [s|]; [|split; discriminate].
  rewrite String.eqb_eq. split; congruence.
Qed.

Lemma X7_issued_nonce_witness :
  state_accepted
    (snd (initiate_social_login (Demo.world x00) Demo.start_request
            (Some GOOGLE) Demo.fresh))
    (Demo.callback_request Demo.nonce00) = true
  <-> args_get (args (Demo.callback_request Demo.nonce00)) "state"
      = Some (Hex.hex (urandom (Demo.world x00) 16)).
Proof.
  apply (X7_callback_accepts_exactly_the_issued_nonce (Demo.world x00)
           Demo.start_request (Demo.callback_request Demo.nonce00) GOOGLE
           Demo.fresh).
  reflexivity.
Defined.

(** X8: a second [start] replaces the nonce of the first: when the two
    drew different bytes, a callback that echoes the first nonce is
    rejected with the invalid-state error and changes nothing. *)
Theorem X8_second_start_invalidates_first_nonce (w1 w2 w : World)
    (req1 req2 req : Request) (c1 c2 : OAuthProvider)
    (p : option OAuthProvider) (st0 : pystate) :
  length (urandom w2 16) = 16 ->
  urandom w1 16 <> urandom w2 16 ->
  args_get (args req) "state" = Some (Hex.hex (urandom w1 16)) ->
  let st1 := snd (initiate_social_login w1 req1 (Some c1) st0) in
  let st2 := snd (initiate_social_login w2 req2 (Some c2) st1) in
  handle_oauth_callback w req p st2 = (inl InvalidStateError, st2).
Proof.
  intros Hlen Hne Hst st1 st2. apply callback_rejected.
  unfold st2. rewrite (accepted_after_start _ _ _ _ _ Hlen), Hst.
  apply String.eqb_neq. intros He. apply Hne. symmetry. apply hex_inj, He.
Qed.

Lemma X8_second_start_witness :
  let st1 := snd (initiate_social_login (Demo.world x00) Demo.start_request
                    (Some GOOGLE) Demo.fresh) in
  let st2 := snd (initiate_social_login (Demo.world xff) Demo.start_request
                    (Some LINKEDIN) st1) in
  handle_oauth_callback (Demo.world x00) (Demo.callback_request Demo.nonce00)
    (Some GOOGLE) st2
  = (inl InvalidStateError, st2).
Proof.
  apply (X8_second_start_invalidates_first_nonce (Demo.world x00)
           (Demo.world xff) (Demo.world x00) Demo.start_request
           Demo.start_request (Demo.callback_request Demo.nonce00) GOOGLE
           LINKEDIN (Some GOOGLE) Demo.fresh).
  - reflexivity.
  - vm_compute. discriminate.
  - reflexivity.
Defined.

Lemma not_accepted_without_nonce (st : pystate) (req : Request) :
  session st !! "oauth_state" = None -> state_accepted st req = false.
Proof. intros H. unfold state_accepted. rewrite H. reflexivity. Qed.

(** X9: no replay: once a callback has passed the state check, whatever
    its outcome, every later callback on the resulting session is rejected
    with the invalid-state error, until a new [start]. *)
Theorem X9_accepted_callback_cannot_be_replayed (w w' : World)
    (req req' : Request) (p p' : option OAuthProvider) (st : pystate) :
  state_accepted st req = true ->
  let st' := snd (handle_oauth_callback w req p st) in
  handle_oauth_callback w' req' p' st' = (inl InvalidStateError, st').
Proof.
  intros H st'. apply callback_rejected, not_accepted_without_nonce.
  apply callback_accepted_nonce, H.
Qed.

Lemma X9_replay_witness :
  let st' := snd (handle_oauth_callback (Demo.world x00)
                    (Demo.callback_request Demo.nonce00) (Some LINKEDIN)
                    (Demo.waiting Demo.nonce00)) in
  handle_oauth_callback (Demo.world x00) (Demo.callback_request Demo.nonce00)
    (Some LINKEDIN) st'
  = (inl InvalidStateError, st').
Proof.
  apply (X9_accepted_callback_cannot_be_replayed (Demo.world x00)
           (Demo.world x00) (Demo.callback_request Demo.nonce00)
           (Demo.callback_request Demo.nonce00) (Some LINKEDIN) (Some LINKEDIN)
           (Demo.waiting Demo.nonce00)).
  vm_compute. reflexivity.
Defined.

(** X10: after logout no callback is accepted: the nonce went with the
    rest of the session. *)
Theorem X10_callback_after_logout_rejected (w : World) (req : Request)
    (p : option OAuthProvider) (st : pystate) :
  handle_oauth_callback w req p (snd (logout st))
  = (inl InvalidStateError, snd (logout st)).
Proof.
  apply callback_rejected, not_accepted_without_nonce.
  unfold logout. unfold_m. apply lookup_empty.
Qed.

(** ** What [start] touches *)

(** X11: [start] writes [redirect_path] and [oauth_state] before it calls
    the client library, so both are in the session also when that call
    raises and no redirect is produced; every other key of the application
    ([user_data] of a logged-in user among them) is left as it was, and
    the library is called exactly once. *)
Theorem X11_start_footprint (w : World) (req : Request) (c : OAuthProvider)
    (st : pystate) :
  let uri := url_for_auth_callback (settings w) req (provider_value c) in
  let state := Hex.hex (urandom w 16) in
  let st' := snd (initiate_social_login w req (Some c) st) in
  session st' !! "redirect_path" = Some (JStr uri)
  /\ session st' !! "oauth_state" = Some (JStr state)
  /\ (forall k, app_key k -> k <> "redirect_path" -> k <> "oauth_state" ->
                session st' !! k = session st !! k)
  /\ calls st' = (calls st ++ [CallAuthorizeRedirect c uri state])%list
  /\ fst (initiate_social_login w req (Some c) st)
     = match lib_result
               (client_authorize_redirect w c uri state
                  (<["oauth_state" := JStr state]>
                     (<["redirect_path" := JStr uri]> (session st)))) with
       | inl e => inl e
       | inr _ => inr (AuthorizeRedirectResponse c uri state)
       end.
Proof.
  intros uri state st'. subst uri state st'. split; [|split; [|split; [|split]]].
  - rewrite (start_session _ _ _ _ _ app_key_redirect_path).
    rewrite lookup_insert_ne by discriminate. apply lookup_insert_eq.
  - apply start_nonce_stored.
  - intros k Hk H1 H2. rewrite (start_session _ _ _ _ _ Hk).
    rewrite !lookup_insert_ne by congruence. reflexivity.
  - unfold initiate_social_login, clients_get. unfold_m.
    match goal with
    | |- context [lib_result ?o] => destruct (lib_result o)
    end; reflexivity.
  - unfold initiate_social_login, clients_get. unfold_m.
    match goal with
    | |- context [lib_result ?o] => destruct (lib_result o) as [e|[]]
    end; reflexivity.
Qed.

(** ** The token step *)

(** X12: for LinkedIn, an exception of the HTTP client during the token
    request is the exception of the callback: it is neither caught nor
    wrapped, the profile is not requested, and [user_data] stays as it
    was. *)
Theorem X12_linkedin_transport_error_propagates (w : World) (req : Request)
    (st : pystate) (e : exn) :
  state_accepted st req = true ->
  httpx_post w linkedin_access_token_url (linkedin_token_data w req) = inl e ->
  handle_oauth_callback w req (Some LINKEDIN) st
  = (inl e,
     {| session := delete "oauth_state" (session st);
        calls := calls st ++ [CallTokenPost linkedin_access_token_url
                                (linkedin_token_data w req)] |}).
Proof.
  intros H Hp. apply (callback_token_failure _ _ _ _ _ _ H).
  unfold get_token. cbn [is_linkedin]. unfold_m. rewrite Hp. reflexivity.
Qed.

Lemma X12_transport_error_witness :
  handle_oauth_callback
    (demo_world_with (inl (LibraryError "ConnectError")) (inr Demo.unauthorized))
    (Demo.callback_request Demo.nonce00) (Some LINKEDIN)
    (Demo.waiting Demo.nonce00)
  = (inl (LibraryError "ConnectError"),
     {| session := delete "oauth_state" (session (Demo.waiting Demo.nonce00));
        calls := calls (Demo.waiting Demo.nonce00)
                 ++ [CallTokenPost linkedin_access_token_url
                       (linkedin_token_data
                          (demo_world_with (inl (LibraryError "ConnectError"))
                             (inr Demo.unauthorized))
                          (Demo.callback_request Demo.nonce00))] |}).
Proof.
  apply X12_linkedin_transport_error_propagates.
  - vm_compute. reflexivity.
  - reflexivity.
Defined.

(** X13: for LinkedIn, a 200 answer whose body is not JSON makes the
    callback fail with the decoding error of [.json()], not with the
    token-exchange [BadRequest]; the nonce is consumed all the same. *)
Theorem X13_linkedin_malformed_token_body (w : World) (req : Request)
    (st : pystate) (resp : http_response) :
  state_accepted st req = true ->
  httpx_post w linkedin_access_token_url (linkedin_token_data w req) = inr resp ->
  status_code resp = 200%Z ->
  json_body resp = None ->
  handle_oauth_callback w req (Some LINKEDIN) st
  = (inl JSONDecodeError,
     {| session := delete "oauth_state" (session st);
        calls := calls st ++ [CallTokenPost linkedin_access_token_url
                                (linkedin_token_data w req)] |}).
Proof.
  intros H Hp Hs Hb. apply (callback_token_failure _ _ _ _ _ _ H).
  unfold get_token. cbn [is_linkedin]. unfold_m. rewrite Hp, Hs, Hb.
  reflexivity.
Qed.

Lemma X13_malformed_token_body_witness :
  handle_oauth_callback
    (demo_world_with
       (inr {| status_code := 200; text := "<html>"; json_body := None |})
       (inr Demo.unauthorized))
    (Demo.callback_request Demo.nonce00) (Some LINKEDIN)
    (Demo.waiting Demo.nonce00)
  = (inl JSONDecodeError,
     {| session := delete "oauth_state" (session (Demo.waiting Demo.nonce00));
        calls := calls (Demo.waiting Demo.nonce00)
                 ++ [CallTokenPost linkedin_access_token_url
                       (linkedin_token_data
                          (demo_world_with
                             (inr {| status_code := 200; text := "<html>";
                                     json_body := None |})
                             (inr Demo.unauthorized))
                          (Demo.callback_request Demo.nonce00))] |}).
Proof.
  apply (X13_linkedin_malformed_token_body _ _ _
           {| status_code := 200; text := "<html>"; json_body := None |}).
  - vm_compute. reflexivity.
  - reflexivity.
  - reflexivity.
  - reflexivity.
Defined.

(** ** The profile step *)

Lemma fetch_user_data_state (w : World) (p : option OAuthProvider) (token : json)
    (st : pystate) :
  snd (fetch_user_data w p token st)
  = {| session := session st;
       calls := calls st
                ++ match p with
                   | Some c => [CallProfileGet c (userinfo_url c) token]
                   | None => []
                   end |}.
Proof.
  unfold fetch_user_data, client_get_logged, clients_get.
  destruct p as [[| |]|]; cbn [is_linkedin is_facebook userinfo_url]; unfold_m;
    try (destruct (client_get w _ _ _) as [e|resp]; [reflexivity|];
         destruct (status_code resp =? 200)%Z; [|reflexivity];
         destruct (json_body resp); reflexivity).
  rewrite app_nil_r. destruct st; reflexivity.
Qed.

(** X14: the profile fetch never raises and never touches the session; it
    makes one request, to the URL of the provider, or none at all when the
    provider is unresolved. *)
Theorem X14_fetch_user_data_never_raises (w : World) (p : option OAuthProvider)
    (token : json) (st : pystate) :
  exists user_data,
    fetch_user_data w p token st
    = (inr user_data,
       {| session := session st;
          calls := calls st
                   ++ match p with
                      | Some c => [CallProfileGet c (userinfo_url c) token]
                      | None => []
                      end |}).
Proof.
  destruct (fetch_user_data_total w p token st) as (u & st' & H & _).
  exists u. pose proof (fetch_user_data_state w p token st) as Hs.
  rewrite H in Hs. cbn [snd] in Hs. rewrite H, Hs. reflexivity.
Qed.

Lemma fetch_user_data_value (w : World) (c : OAuthProvider) (token : json)
    (st : pystate) :
  fst (fetch_user_data w (Some c) token st)
  = inr match client_get w c (userinfo_url c) token with
        | inl _ => JNull
        | inr resp =>
            if (status_code resp =? 200)%Z then
              from_option id JNull (json_body resp)
            else JNull
        end.
Proof.
  unfold fetch_user_data, client_get_logged, clients_get.
  destruct c; cbn [is_linkedin is_facebook userinfo_url]; unfold_m;
    (destruct (client_get w _ _ _) as [e|resp]; [reflexivity|];
     destruct (status_code resp =? 200)%Z; [|reflexivity];
     destruct (json_body resp); reflexivity).
Qed.

(** X15: every way the profile request can go wrong gives the same result
    [None]: an exception of the client, a status other than 200, a body
    that is not JSON. The detail of the failure does not leave the
    function. *)
Theorem X15_fetch_user_data_swallows_failures (w : World) (c : OAuthProvider)
    (token : json) (st : pystate) :
  (exists e, client_get w c (userinfo_url c) token = inl e)
  \/ (exists resp, client_get w c (userinfo_url c) token = inr resp
                   /\ (status_code resp <> 200%Z \/ json_body resp = None)) ->
  fst (fetch_user_data w (Some c) token st) = inr JNull.
Proof.
  intros H. rewrite fetch_user_data_value.
  destruct H as [[e ->]|(resp & -> & [Hs|Hb])]; [reflexivity| |].
  - apply Z.eqb_neq in Hs. rewrite Hs. reflexivity.
  - rewrite Hb. destruct (status_code resp =? 200)%Z; reflexivity.
Qed.

Lemma X15_fetch_failure_witness :
  fst (fetch_user_data
         (demo_world_with (inr (Demo.ok Demo.token)) (inr Demo.unauthorized))
         (Some FACEBOOK) Demo.token Demo.fresh)
  = inr JNull.
Proof.
  apply X15_fetch_user_data_swallows_failures.
  right. exists Demo.unauthorized. split; [reflexivity|].
  left. vm_compute. discriminate.
Defined.

Lemma callback_profile_failure (w : World) (req : Request)
    (p : option OAuthProvider) (st st2 : pystate) (token : json) :
  state_accepted st req = true ->
  get_token w req p (after_pop st) = (inr token, st2) ->
  (forall u, fst (fetch_user_data w p token st2) = inr u -> truthy u = false) ->
  handle_oauth_callback w req p st
  = (inl ProfileFetchError, snd (fetch_user_data w p token st2)).
Proof.
  intros H Ht Hu. rewrite (callback_accepted _ _ _ _ H), Ht.
  destruct (fetch_user_data_total w p token st2) as (u & st3 & Hf & _).
  rewrite Hf in *. cbn [fst snd] in *. rewrite (Hu u eq_refl). reflexivity.
Qed.

(** X16: when the token step succeeded and the profile request fails (the
    client raises, the status is not 200, the body is not JSON, or the
    body is an empty or otherwise falsy value), the callback raises the
    internal error "Failed to fetch user data."; the nonce is consumed and
    [user_data] and [redirect_path] are what they were. *)
Theorem X16_profile_failure_is_internal_error (w : World) (req : Request)
    (c : OAuthProvider) (st st2 : pystate) (token : json) :
  state_accepted st req = true ->
  get_token w req (Some c) (after_pop st) = (inr token, st2) ->
  (exists e, client_get w c (userinfo_url c) token = inl e)
  \/ (exists resp, client_get w c (userinfo_url c) token = inr resp
                   /\ (status_code resp <> 200%Z
                       \/ json_body resp = None
                       \/ exists u, json_body resp = Some u /\ truthy u = false)) ->
  let r := handle_oauth_callback w req (Some c) st in
  fst r = inl ProfileFetchError
  /\ session (snd r) !! "oauth_state" = None
  /\ session (snd r) !! "user_data" = session st !! "user_data"
  /\ session (snd r) !! "redirect_path" = session st !! "redirect_path".
Proof.
  intros H Ht Hc r.
  assert (Hr : handle_oauth_callback w req (Some c) st
               = (inl ProfileFetchError,
                  snd (fetch_user_data w (Some c) token st2))).
  { apply (callback_profile_failure _ _ _ _ _ _ H Ht).
    intros u. rewrite fetch_user_data_value. intros [= <-].
    destruct Hc as [[e ->]|(resp & -> & [Hs|[Hb|(u & Hb & Hu)]])];
      try reflexivity.
    - apply Z.eqb_neq in Hs. rewrite Hs. reflexivity.
    - rewrite Hb. destruct (status_code resp =? 200)%Z; reflexivity.
    - rewrite Hb. destruct (status_code resp =? 200)%Z; [exact Hu|reflexivity]. }
  subst r. rewrite Hr. cbn [fst snd]. rewrite fetch_user_data_state.
  cbn [session].
  assert (Hfr : forall k, app_key k ->
                  session st2 !! k = delete "oauth_state" (session st) !! k).
  { intros k Hk.
    pose proof (get_token_frame w req (Some c) (after_pop st) k Hk) as Hg.
    rewrite Ht in Hg. exact Hg. }
  split; [reflexivity|]. split; [|split].
  - rewrite (Hfr _ app_key_oauth_state). apply lookup_delete_eq.
  - rewrite (Hfr _ app_key_user_data). apply lookup_delete_ne. discriminate.
  - rewrite (Hfr _ app_key_redirect_path). apply lookup_delete_ne. discriminate.
Qed.

Lemma X16_profile_failure_witness :
  let r := handle_oauth_callback
             (demo_world_with (inr (Demo.ok Demo.token))
                (inr (Demo.ok (JObj []))))
             (Demo.callback_request Demo.nonce00) (Some GOOGLE)
             (Demo.waiting Demo.nonce00) in
  fst r = inl ProfileFetchError
  /\ session (snd r) !! "oauth_state" = None
  /\ session (snd r) !! "user_data"
     = session (Demo.waiting Demo.nonce00) !! "user_data"
  /\ session (snd r) !! "redirect_path"
     = session (Demo.waiting Demo.nonce00) !! "redirect_path".
Proof.
  apply (X16_profile_failure_is_internal_error
           (demo_world_with (inr (Demo.ok Demo.token)) (inr (Demo.ok (JObj []))))
           (Demo.callback_request Demo.nonce00) GOOGLE
           (Demo.waiting Demo.nonce00)
           {| session := delete "oauth_state" (session (Demo.waiting Demo.nonce00));
              calls := [CallAuthorizeAccessToken GOOGLE] |}
           Demo.token).
  - vm_compute. reflexivity.
  - vm_compute. reflexivity.
  - right. exists (Demo.ok (JObj [])). split; [reflexivity|].
    right. right. exists (JObj []). split; reflexivity.
Defined.

(** ** The whole callback *)

Lemma get_token_calls (w : World) (req : Request) (c : OAuthProvider)
    (st : pystate) :
  calls (snd (get_token w req (Some c) st))
  = (calls st ++ [token_call w req c])%list.
Proof.
  unfold get_token, clients_get.
  destruct c; cbn [is_linkedin token_call]; unfold_m; try reflexivity.
  destruct (httpx_post w _ _) as [e|resp]; [reflexivity|].
  destruct (negb _); [reflexivity|].
  destruct (json_body resp); reflexivity.
Qed.

Lemma get_token_unresolved (w : World) (req : Request) (st : pystate) :
  get_token w req None st
  = (inl (AttributeError
            "'NoneType' object has no attribute 'authorize_access_token'"),
     st).
Proof. reflexivity. Qed.

(** X17: a callback for an unresolved provider never succeeds and never
    calls out: it ends with an exception, the log of outbound calls is
    what it was, and so is [user_data]. *)
Theorem X17_unresolved_provider_callback_fails_offline (w : World)
    (req : Request) (st : pystate) :
  (exists e, fst (handle_oauth_callback w req None st) = inl e)
  /\ calls (snd (handle_oauth_callback w req None st)) = calls st
  /\ session (snd (handle_oauth_callback w req None st)) !! "user_data"
     = session st !! "user_data".
Proof.
  destruct (state_accepted st req) eqn:H.
  - rewrite (callback_token_failure _ _ _ _ _ _ H
               (get_token_unresolved w req (after_pop st))).
    cbn [fst snd after_pop session calls].
    split; [eauto|]. split; [reflexivity|].
    apply lookup_delete_ne. discriminate.
  - rewrite (callback_rejected _ _ _ _ H). cbn [fst snd]. eauto.
Qed.

(** X18: a callback that succeeds has made exactly two outbound calls, in
    this order: the token call of its provider, then one profile request
    to the URL of that provider, carrying the token just obtained. *)
Theorem X18_successful_callback_call_log (w : World) (req : Request)
    (p : option OAuthProvider) (st : pystate) (r : response) :
  fst (handle_oauth_callback w req p st) = inr r ->
  exists c token,
    p = Some c
    /\ fst (get_token w req p (after_pop st)) = inr token
    /\ calls (snd (handle_oauth_callback w req p st))
       = (calls st ++ [token_call w req c;
                       CallProfileGet c (userinfo_url c) token])%list.
Proof.
  intros Hr.
  destruct (callback_success w req p st r Hr)
    as (token & st2 & u & st3 & _ & Ht & Hf & Hu & _ & Heq).
  destruct (fetch_user_data_truthy _ _ _ _ _ _ Hf Hu) as (c & resp & -> & _).
  exists c, token. split; [reflexivity|]. rewrite Ht. split; [reflexivity|].
  rewrite Heq. cbn [snd calls].
  pose proof (fetch_user_data_state w (Some c) token st2) as Hs.
  rewrite Hf in Hs. cbn [snd] in Hs. rewrite Hs. cbn [calls].
  pose proof (get_token_calls w req c (after_pop st)) as Hc.
  rewrite Ht in Hc. cbn [snd after_pop calls] in Hc. rewrite Hc.
  rewrite <- app_assoc. reflexivity.
Qed.

Lemma X18_call_log_witness :
  exists c token,
    Some LINKEDIN = Some c
    /\ fst (get_token (Demo.world x00) (Demo.callback_request Demo.nonce00)
              (Some LINKEDIN) (after_pop (Demo.waiting Demo.nonce00)))
       = inr token
    /\ calls (snd (handle_oauth_callback (Demo.world x00)
                     (Demo.callback_request Demo.nonce00) (Some LINKEDIN)
                     (Demo.waiting Demo.nonce00)))
       = (calls (Demo.waiting Demo.nonce00)
          ++ [token_call (Demo.world x00) (Demo.callback_request Demo.nonce00) c;
              CallProfileGet c (userinfo_url c) token])%list.
Proof.
  apply (X18_successful_callback_call_log (Demo.world x00)
           (Demo.callback_request Demo.nonce00) (Some LINKEDIN)
           (Demo.waiting Demo.nonce00) (Redirect (JStr url_for_success))).
  vm_compute. reflexivity.
Defined.

Lemma callback_frame (w : World) (req : Request) (p : option OAuthProvider)
    (st : pystate) (k : string) :
  app_key k -> k <> "oauth_state" ->
  (k = "user_data" \/ k = "redirect_path" ->
   exists e, fst (handle_oauth_callback w req p st) = inl e) ->
  session (snd (handle_oauth_callback w req p st)) !! k = session st !! k.
Proof.
  intros Hk Hn Hfail.
  destruct (state_accepted st req) eqn:H.
  2:{ rewrite (callback_rejected _ _ _ _ H). reflexivity. }
  rewrite (callback_accepted _ _ _ _ H) in *.
  pose proof (get_token_frame w req p (after_pop st) k Hk) as Ht.
  cbn [after_pop session] in Ht.
  rewrite lookup_delete_ne in Ht by congruence.
  destruct (get_token w req p (after_pop st)) as [[e|token] st2];
    cbn [snd] in *; [exact Ht|].
  destruct (fetch_user_data_total w p token st2) as (u & st3 & Hf & Hs).
  rewrite Hf in *.
  destruct (negb (truthy u)); cbn [fst snd session] in *.
  - rewrite Hs. exact Ht.
  - destruct (decide (k = "user_data")) as [->|N1].
    { destruct Hfail as [e He]; [left; reflexivity | discriminate]. }
    destruct (decide (k = "redirect_path")) as [->|N2].
    { destruct Hfail as [e He]; [right; reflexivity | discriminate]. }
    rewrite lookup_delete_ne by congruence.
    rewrite lookup_insert_ne by congruence.
    rewrite Hs. exact Ht.
Qed.

(** X19: a callback that fails, at whichever gate, changes no key of the
    application other than [oauth_state]: the profile of a user already
    logged in and the stored [redirect_path] survive a failed attempt. *)
Theorem X19_failed_callback_footprint (w : World) (req : Request)
    (p : option OAuthProvider) (st : pystate) (e : exn) (k : string) :
  fst (handle_oauth_callback w req p st) = inl e ->
  app_key k -> k <> "oauth_state" ->
  session (snd (handle_oauth_callback w req p st)) !! k = session st !! k.
Proof.
  intros He Hk Hn. apply callback_frame; [exact Hk|exact Hn|]. eauto.
Qed.

Lemma X19_failed_callback_witness :
  session (snd (handle_oauth_callback Demo.world_401
                  (Demo.callback_request Demo.nonce00) (Some GOOGLE)
                  demo_started)) !! "redirect_path"
  = session demo_started !! "redirect_path".
Proof.
  apply (X19_failed_callback_footprint Demo.world_401
           (Demo.callback_request Demo.nonce00) (Some GOOGLE) demo_started
           (LibraryError "invalid_client")).
  - vm_compute. reflexivity.
  - apply app_key_redirect_path.
  - discriminate.
Defined.

(** X20: a callback, successful or not, changes among the keys of the
    application only [oauth_state], [user_data] and [redirect_path]. *)
Theorem X20_callback_footprint (w : World) (req : Request)
    (p : option OAuthProvider) (st : pystate) (k : string) :
  app_key k ->
  k <> "oauth_state" -> k <> "user_data" -> k <> "redirect_path" ->
  session (snd (handle_oauth_callback w req p st)) !! k = session st !! k.
Proof.
  intros Hk H1 H2 H3. apply callback_frame; [exact Hk|exact H1|].
  intros [->| ->]; contradiction.
Qed.

Lemma X20_callback_footprint_witness :
  session (snd (handle_oauth_callback (Demo.world x00)
                  (Demo.callback_request Demo.nonce00) (Some LINKEDIN)
                  (Demo.waiting Demo.nonce00))) !! "user"
  = session (Demo.waiting Demo.nonce00) !! "user".
Proof.
  apply X20_callback_footprint; [apply app_key_user | discriminate ..].
Defined.

(** ** The routes *)

Lemma auth_callback_outcome (w : World) (req : Request) (name : string)
    (st : pystate) :
  auth_callback w req name st
  = (match fst (handle_oauth_callback w req (get_provider name) st) with
     | inr _ => inr (Redirect (JStr url_for_success))
     | inl _ => inr (Redirect (JStr url_for_failure))
     end,
     snd (handle_oauth_callback w req (get_provider name) st)).
Proof.
  unfold auth_callback, try_except, bind.
  destruct (handle_oauth_callback w req (get_provider name) st)
    as [[e|r] st1] eqn:Hh; [reflexivity|].
  destruct (callback_success w req (get_provider name) st r)
    as (token & st2 & u & st3 & _ & _ & _ & Hu & _ & Heq);
    [rewrite Hh; reflexivity|].
  rewrite Hh in Heq. injection Heq as _ ->.
  unfold session_getitem. cbn [session fst snd].
  rewrite lookup_delete_ne by discriminate. rewrite lookup_insert_eq.
  rewrite Hu. reflexivity.
Qed.

(** X21: the callback route never raises: every exception of the service
    becomes a redirect to the failure page, and a callback that returned
    becomes a redirect to the success page; the response the service
    returned, and with it the stored [redirect_path], is not used. *)
Theorem X21_auth_callback_route_total (w : World) (req : Request)
    (name : string) (st : pystate) :
  auth_callback w req name st
  = (match fst (handle_oauth_callback w req (get_provider name) st) with
     | inr _ => inr (Redirect (JStr url_for_success))
     | inl _ => inr (Redirect (JStr url_for_failure))
     end,
     snd (handle_oauth_callback w req (get_provider name) st)).
Proof. apply auth_callback_outcome. Qed.



(** X23: the login route for a name that is no provider does not raise:
    it queues the message "Failed to initiate social login." and redirects
    to the entry page; no nonce is stored and no call leaves the
    process. *)
Theorem X23_social_login_unknown_provider (w : World) (req : Request)
    (name : string) (st : pystate) :
  name <> "google" -> name <> "facebook" -> name <> "linkedin" ->
  session st !! "_flashes" = None ->
  social_login w req name st
  = (inr (Redirect (JStr url_for_index)),
     {| session :=
          <["_flashes" :=
              JArr [JArr [JStr "message";
                          JStr "Failed to initiate social login."]]]>
            (session st);
        calls := calls st |}).
Proof.
  intros Hg Hf Hl Hfl. unfold social_login, try_except.
  rewrite (get_provider_unknown name Hg Hf Hl).
  cbn [initiate_social_login clients_get]. unfold flash. unfold_m.
  rewrite Hfl. reflexivity.
Qed.

Lemma X23_social_login_unknown_witness :
  social_login (Demo.world x00) Demo.start_request "twitter" Demo.fresh
  = (inr (Redirect (JStr url_for_index)),
     {| session :=
          <["_flashes" :=
              JArr [JArr [JStr "message";
                          JStr "Failed to initiate social login."]]]>
            (session Demo.fresh);
        calls := calls Demo.fresh |}).
Proof.
  apply X23_social_login_unknown_provider;
    [discriminate | discriminate | discriminate | reflexivity].
Defined.

(** ** Callback URLs *)

Lemma append_cancel_l (s a b : string) : s +:+ a = s +:+ b -> a = b.
Proof.
  induction s as [|c s IH]; cbn [String.append]; [tauto|].
  intros [= H]. apply IH, H.
Qed.

(** X24: the callback URL names its provider: two providers never get the
    same callback URL, so the route parameter of a callback determines the
    provider that started the login. *)
Theorem X24_callback_url_determines_provider (cfg : Config) (req : Request)
    (p1 p2 : OAuthProvider) :
  url_for_auth_callback cfg req (provider_value p1)
  = url_for_auth_callback cfg req (provider_value p2) ->
  p1 = p2.
Proof.
  unfold url_for_auth_callback. intros H.
  do 4 apply append_cancel_l in H.
  destruct p1, p2; cbn [provider_value] in H; try reflexivity;
    cbv [String.append] in H; discriminate.
Qed.

Lemma X24_callback_url_witness : GOOGLE = GOOGLE.
Proof.
  apply (X24_callback_url_determines_provider Demo.cfg Demo.start_request).
  reflexivity.
Defined.

(** X25: for LinkedIn, the [redirect_uri] of the token request is the one
    [start] gave to the authorization redirect, provided both requests
    reached the application under the same host. *)
Theorem X25_linkedin_redirect_uri_consistent (w : World) (req0 req : Request)
    (st : pystate) :
  host req0 = host req ->
  exists uri state,
    calls (snd (initiate_social_login w req0 (Some LINKEDIN) st))
    = (calls st ++ [CallAuthorizeRedirect LINKEDIN uri state])%list
    /\ session (snd (initiate_social_login w req0 (Some LINKEDIN) st))
         !! "redirect_path" = Some (JStr uri)
    /\ In ("redirect_uri", Some uri) (linkedin_token_data w req).
Proof.
  intros Hh.
  exists (url_for_auth_callback (settings w) req0 (provider_value LINKEDIN)),
         (Hex.hex (urandom w 16)).
  split; [|split].
  - unfold initiate_social_login, clients_get. unfold_m.
    match goal with
    | |- context [lib_result ?o] => destruct (lib_result o)
    end; reflexivity.
  - rewrite (start_session _ _ _ _ _ app_key_redirect_path).
    rewrite lookup_insert_ne by discriminate. apply lookup_insert_eq.
  - unfold linkedin_token_data, url_for_auth_callback. rewrite Hh.
    cbn [In]. tauto.
Qed.

Lemma X25_redirect_uri_witness :
  exists uri state,
    calls (snd (initiate_social_login (Demo.world x00) Demo.start_request
                  (Some LINKEDIN) Demo.fresh))
    = (calls Demo.fresh ++ [CallAuthorizeRedirect LINKEDIN uri state])%list
    /\ session (snd (initiate_social_login (Demo.world x00) Demo.start_request
                       (Some LINKEDIN) Demo.fresh))
         !! "redirect_path" = Some (JStr uri)
    /\ In ("redirect_uri", Some uri)
          (linkedin_token_data (Demo.world x00)
             (Demo.callback_request Demo.nonce00)).
Proof.
  apply X25_linkedin_redirect_uri_consistent. reflexivity.
Defined.
